(** * noxfile.py: the [rust_coverage] session and the sessions it builds on

    A shallow embedding of [noxfile.py].  The sessions are sequences of
    calls into nox ([session.run], [session.install], [session.chdir]),
    [glob], [open] and [json]; the embedding threads an explicit program
    state through them, records every call with its outcome in a trace, and
    takes the outcomes themselves from an arbitrary [World]. *)

From Stdlib Require Import String Ascii List ZArith Lia Bool.
From stdpp Require Import base gmap strings.
Import ListNotations.

Set Warnings "-register-all,-notation-for-abbreviation".
Local Open Scope string_scope.
Local Open Scope list_scope.

(** ** Python values and exceptions *)

(** What [json.loads] can return.  A [JObj] lists the items of the dict in
    insertion order; its keys are pairwise distinct, a lookup takes the
    first binding.  A float is kept up to what the sessions observe of it,
    whether it is zero. *)
Inductive json : Type :=
  | JNull
  | JBool (b : bool)
  | JInt (n : Z)
  | JFloat (nonzero : bool)
  | JStr (s : string)
  | JArr (elems : list json)
  | JObj (items : list (string * json)).

(** The exceptions that the sessions can meet. *)
Inductive exn : Type :=
  | KeyError (key : string)
  | TypeError
  | AssertionError
  | JSONDecodeError
  | CommandFailed
  | OSError.

Inductive result (A : Type) : Type :=
  | Ok (a : A)
  | Raise (e : exn).
Arguments Ok {A} a.
Arguments Raise {A} e.

Definition is_KeyError (e : exn) : bool :=
  match e with KeyError _ => true | _ => false end.

Fixpoint dict_get (items : list (string * json)) (k : string) : option json :=
  match items with
  | [] => None
  | (k', v) :: rest => if String.eqb k' k then Some v else dict_get rest k
  end.

(** [v[k]] for a string key [k]. *)
Definition py_getitem (v : json) (k : string) : result json :=
  match v with
  | JObj items =>
      match dict_get items k with
      | Some x => Ok x
      | None => Raise (KeyError k)
      end
  | _ => Raise TypeError
  end.

(** The truth value of [v], as [if v:] takes it. *)
Definition py_truthy (v : json) : bool :=
  match v with
  | JNull => false
  | JBool b => b
  | JInt n => negb (Z.eqb n 0)
  | JFloat nonzero => nonzero
  | JStr s => negb (String.eqb s EmptyString)
  | JArr elems => match elems with [] => false | _ => true end
  | JObj items => match items with [] => false | _ => true end
  end.

(** [len(v)]. *)
Definition py_len (v : json) : result nat :=
  match v with
  | JStr s => Ok (String.length s)
  | JArr elems => Ok (List.length elems)
  | JObj items => Ok (List.length items)
  | _ => Raise TypeError
  end.

Fixpoint chars (s : string) : list json :=
  match s with
  | EmptyString => []
  | String c rest => JStr (String c EmptyString) :: chars rest
  end.

(** The elements that [list.extend(v)] appends. *)
Definition py_iter (v : json) : result (list json) :=
  match v with
  | JStr s => Ok (chars s)
  | JArr elems => Ok elems
  | JObj items => Ok (map (fun kv => JStr (fst kv)) items)
  | _ => Raise TypeError
  end.

(** ** [str.splitlines] *)

Definition is_cr (c : ascii) : bool := Ascii.eqb c "013"%char.
Definition is_lf (c : ascii) : bool := Ascii.eqb c "010"%char.

(** The line boundaries of [str.splitlines] among the code points below
    256: VT, FF, FS, GS, RS and NEL, besides CR and LF. *)
Definition is_linebreak (c : ascii) : bool :=
  is_lf c || Ascii.eqb c "011"%char || Ascii.eqb c "012"%char
  || Ascii.eqb c "028"%char || Ascii.eqb c "029"%char
  || Ascii.eqb c "030"%char || Ascii.eqb c "133"%char.

Fixpoint splitlines_from (line s : string) : list string :=
  match s with
  | EmptyString =>
      match line with EmptyString => [] | _ => [line] end
  | String c rest =>
      if is_cr c then
        match rest with
        | String c' rest' =>
            if is_lf c' then line :: splitlines_from EmptyString rest'
            else line :: splitlines_from EmptyString rest
        | EmptyString => [line]
        end
      else if is_linebreak c then line :: splitlines_from EmptyString rest
      else splitlines_from (line +:+ String c EmptyString) rest
  end.

Definition splitlines (s : string) : list string :=
  splitlines_from EmptyString s.

(** ** The loop over the build messages (lines 190-201) *)

Section Parser.

(** [json.loads]: [None] when it raises [JSONDecodeError]. *)
Variable json_loads : string -> option json.

(** The body of the [try] statement on one decoded message.  The list
    [filenames] is changed in place, so the list is returned next to the
    outcome, also when the body raises.  Assertions are on, as they are
    unless Python is run with [-O]. *)
Definition try_body (data : json) (filenames : list json)
  : result unit * list json :=
  match py_getitem data "profile" with
  | Raise e => (Raise e, filenames)
  | Ok profile =>
      match py_getitem profile "test" with
      | Raise e => (Raise e, filenames)
      | Ok test =>
          if py_truthy test then
            match py_getitem data "filenames" with
            | Raise e => (Raise e, filenames)
            | Ok fs =>
                match py_len fs with
                | Raise e => (Raise e, filenames)
                | Ok n =>
                    if Nat.eqb n 1 then
                      let filenames1 := filenames ++ [JStr "-object"] in
                      match py_getitem data "filenames" with
                      | Raise e => (Raise e, filenames1)
                      | Ok fs' =>
                          match py_iter fs' with
                          | Raise e => (Raise e, filenames1)
                          | Ok xs => (Ok tt, filenames1 ++ xs)
                          end
                      end
                    else (Raise AssertionError, filenames)
                end
            end
          else (Ok tt, filenames)
      end
  end.

(** [try: ... except KeyError: pass]. *)
Definition except_KeyError (r : result unit * list json)
  : result unit * list json :=
  match r with
  | (Raise e, filenames) =>
      if is_KeyError e then (Ok tt, filenames) else (Raise e, filenames)
  | _ => r
  end.

(** One turn of the [for] loop. *)
Definition handle_blob (blob : string) (filenames : list json)
  : result unit * list json :=
  match json_loads blob with
  | None => (Raise JSONDecodeError, filenames)
  | Some data => except_KeyError (try_body data filenames)
  end.

(** The [for] loop: it stops at the first exception. *)
Fixpoint for_blobs (blobs : list string) (filenames : list json)
  : result unit * list json :=
  match blobs with
  | [] => (Ok tt, filenames)
  | blob :: rest =>
      match handle_blob blob filenames with
      | (Ok _, filenames') => for_blobs rest filenames'
      | (Raise e, filenames') => (Raise e, filenames')
      end
  end.

End Parser.

(** ** The state of a session and the outside world *)

(** The file object that [open] returns. *)
Record file : Type := File { file_name : string; file_mode : string }.

#[global] Instance file_eq_dec : EqDecision file.
Proof. solve_decision. Defined.

(** The keyword arguments of [session.run] that the sessions use. *)
Record run_kwargs : Type := RunKwargs {
  external : bool;
  silent : bool;
  stdout : option file
}.

(** What [session.run] returns: [None] when nox skips the run, [True] after
    a run that is not silent, the captured output after a silent one. *)
Inductive run_value : Type :=
  | RNone
  | RTrue
  | RStr (output : string).

Definition run_truthy (v : run_value) : bool :=
  match v with
  | RNone => false
  | RTrue => true
  | RStr output => negb (String.eqb output EmptyString)
  end.

(** One call into the outside world, with the environment and the working
    directory it was made in, and its outcome. *)
Inductive event : Type :=
  | EInstall (env : gmap string string) (dir : string) (args : list string)
      (ok : bool)
  | ERun (env : gmap string string) (dir : string) (args : list json)
      (kw : run_kwargs) (res : option run_value)
  | EGlob (dir : string) (pattern : string) (recursive : bool)
      (res : list string)
  | EOpen (dir : string) (name mode : string) (ok : bool)
  | EClose (f : file).

(** The attributes of [session] that the sessions only read. *)
Record Session : Type := {
  name : string;
  posargs : list string;
  virtualenv_location : string
}.

Record state : Type := State {
  session_env : gmap string string;
  cwd : string;
  open_files : list file;
  trace : list event
}.

(** The outside world decides how each call ends, from the state it is made
    in (which holds the whole history) and its arguments.  A command or an
    installation can fail, a directory can be missing, a file can be
    impossible to open, a line can fail to decode. *)
Record World : Type := {
  install_ok : state -> list string -> bool;
  run_cmd : state -> list json -> run_kwargs -> option run_value;
  glob_result : state -> string -> bool -> list string;
  open_ok : state -> string -> string -> bool;
  chdir_to : state -> string -> option string;
  json_loads : string -> option json
}.

Definition log (ev : event) (s : state) : state :=
  State (session_env s) (cwd s) (open_files s) (trace s ++ [ev]).

Definition set_cwd (dir : string) (s : state) : state :=
  State (session_env s) dir (open_files s) (trace s).

Definition set_env (env : gmap string string) (s : state) : state :=
  State env (cwd s) (open_files s) (trace s).

Definition set_open_files (fs : list file) (s : state) : state :=
  State (session_env s) (cwd s) fs (trace s).

Fixpoint remove_file (f : file) (fs : list file) : list file :=
  match fs with
  | [] => []
  | g :: rest => if decide (f = g) then rest else g :: remove_file f rest
  end.

(** ** The monad of the sessions: state and exceptions *)

Definition M (A : Type) : Type := state -> result A * state.

Definition ret {A} (a : A) : M A := fun s => (Ok a, s).

Definition raise {A} (e : exn) : M A := fun s => (Raise e, s).

Definition bind {A B} (m : M A) (k : A -> M B) : M B := fun s =>
  match m s with
  | (Ok a, s') => k a s'
  | (Raise e, s') => (Raise e, s')
  end.

Notation "x <- m ;; k" := (bind m (fun x => k))
  (at level 100, m at next level, right associativity).
Notation "m ;;; k" := (bind m (fun _ => k))
  (at level 100, right associativity).

Definition strs (l : list string) : list json := map JStr l.

Section Sessions.

Variable W : World.
Variable session : Session.

(** [session.install] with [silent=False]. *)
Definition session_install (args : list string) : M unit := fun s =>
  let ok := install_ok W s args in
  let s' := log (EInstall (session_env s) (cwd s) args ok) s in
  if ok then (Ok tt, s') else (Raise CommandFailed, s').

(** [session.run]: a command that fails raises [CommandFailed]. *)
Definition session_run (args : list json) (kw : run_kwargs) : M run_value :=
  fun s =>
    let res := run_cmd W s args kw in
    let s' := log (ERun (session_env s) (cwd s) args kw res) s in
    match res with
    | Some v => (Ok v, s')
    | None => (Raise CommandFailed, s')
    end.

(** [glob.glob(pattern, recursive=...)]: no match is the empty list. *)
Definition glob_glob (pattern : string) (recursive : bool)
  : M (list string) := fun s =>
    let res := glob_result W s pattern recursive in
    (Ok res, log (EGlob (cwd s) pattern recursive res) s).

(** [with session.chdir(dir): body].  The directory is changed when the
    context manager is built, which fails if there is no such directory,
    and the previous one is put back when the block is left, by its last
    statement or by an exception (going back to the directory one came
    from is taken not to fail). *)
Definition with_chdir {A} (dir : string) (body : M A) : M A := fun s =>
  match chdir_to W s dir with
  | None => (Raise OSError, s)
  | Some d =>
      let prev := cwd s in
      match body (set_cwd d s) with
      | (r, s') => (r, set_cwd prev s')
      end
  end.

(** [with open(name, mode) as f: body].  The file is closed when the
    block is left, by its last statement or by an exception. *)
Definition with_open {A} (fname mode : string) (body : file -> M A)
  : M A := fun s =>
    let ok := open_ok W s fname mode in
    let s1 := log (EOpen (cwd s) fname mode ok) s in
    if ok then
      let f := File fname mode in
      match body f (set_open_files (f :: open_files s1) s1) with
      | (r, s2) =>
          (r, log (EClose f)
                (set_open_files (remove_file f (open_files s2)) s2))
      end
    else (Raise OSError, s1).

(** [session.env.update(d)] for the items [d], in order. *)
Definition env_update (d : list (string * string)) : M unit := fun s =>
  (Ok tt,
   set_env
     (fold_left (fun env kv => <[fst kv := snd kv]> env) d (session_env s))
     s).

Definition default_kw : run_kwargs := RunKwargs false false None.
Definition external_kw : run_kwargs := RunKwargs true false None.

(** Lines 15-22. *)
Definition install (args : list string) : M unit :=
  session_install (["-v"; "-c"; "ci-constraints-requirements.txt"] ++ args).

(** Lines 29-58. *)
Definition tests : M unit :=
  let extras := "test" in
  let extras :=
    if String.eqb (name session) "tests-ssh" then extras +:+ ",ssh"
    else extras in
  let extras :=
    if String.eqb (name session) "tests-randomorder"
    then extras +:+ ",test-randomorder" else extras in
  install [".[" +:+ extras +:+ "]"] ;;;
  install ["-e"; "./vectors"] ;;;
  session_run (strs ["pip"; "list"]) default_kw ;;;
  let cov_args :=
    if negb (String.eqb (name session) "tests-nocoverage")
    then ["--cov=cryptography"; "--cov=tests"] else [] in
  session_run
    (strs (["pytest"; "-n"; "auto"; "--dist=worksteal"] ++ cov_args
           ++ ["--durations=10"] ++ posargs session ++ ["tests/"]))
    default_kw ;;;
  ret tt.

(** Lines 143-149. *)
Definition rust : M unit :=
  install ["."] ;;;
  with_chdir "src/rust/" (
    session_run (strs ["cargo"; "fmt"; "--all"; "--"; "--check"])
      external_kw ;;;
    session_run (strs ["cargo"; "clippy"; "--"; "-D"; "warnings"])
      external_kw ;;;
    session_run (strs ["cargo"; "test"; "--no-default-features"])
      external_kw ;;;
    ret tt).

Definition merge_args (paths : list string) : list json :=
  strs (["cargo"; "profdata"; "--"; "merge"; "-sparse"] ++ paths
        ++ ["-o"; "rust-cov.profdata"]).

Definition messages_args : list json :=
  strs ["cargo"; "test"; "--no-default-features"; "--all"; "--tests";
        "--no-run"; "-q"; "--message-format=json"].

Definition export_args (rust_so : list string) (filenames : list json)
  : list json :=
  strs ["cargo"; "cov"; "--"; "export"] ++ strs rust_so ++ filenames
  ++ strs ["-instr-profile=rust-cov.profdata";
           "--ignore-filename-regex='/.cargo/'";
           "--ignore-filename-regex='/rustc/'";
           "--ignore-filename-regex='/.rustup/toolchains/'";
           "--format=lcov"].

(** The [for] loop of lines 193-201, on the list [filenames = []]. *)
Definition collect_filenames (json_blobs : string) : M (list json) :=
  fun s =>
    match for_blobs (json_loads W) (splitlines json_blobs) [] with
    | (Ok _, filenames) => (Ok filenames, s)
    | (Raise e, _) => (Raise e, s)
    end.

(** Lines 153-221. *)
Definition rust_coverage : M unit :=
  env_update [("RUSTFLAGS", "-Cinstrument-coverage");
              ("LLVM_PROFILE_FILE", "rust-cov/cov-%p.profraw")] ;;;
  tests ;;;
  with_chdir "src/rust/" (
    session_run (strs ["cargo"; "test"; "--no-default-features"])
      external_kw ;;;
    paths <- glob_glob "**/*.profraw" true ;;
    session_run (merge_args paths) external_kw ;;;
    json_blobs <- session_run messages_args (RunKwargs true true None) ;;
    if run_truthy json_blobs then
      match json_blobs with
      | RStr output =>
          filenames <- collect_filenames output ;;
          rust_so <- glob_glob
            (virtualenv_location session
             +:+ "/lib/**/site-packages"
             +:+ "/cryptography/hazmat/bindings/_rust_abi3.so") false ;;
          with_open "../../cov.lcov" "wb" (fun f =>
            session_run (export_args rust_so filenames)
              (RunKwargs true false (Some f)) ;;;
            ret tt)
      | _ => raise AssertionError
      end
    else ret tt).

End Sessions.

(** ** A decoder to run the loop on concrete lines *)

(** [loads] decodes the JSON texts built from objects, arrays, strings
    without escapes, integers, [true], [false] and [null], as [json.loads]
    does, and is [None] on the texts of that form that [json.loads]
    rejects.  Escapes, fractions and exponents are outside its fragment (it
    is [None] there too): it is applied only to texts without them. *)
Module Decoder.

Definition dquote : ascii := "034"%char.

(** JSON texts are written with apostrophes in place of double quotes. *)
Fixpoint text (s : string) : string :=
  match s with
  | EmptyString => EmptyString
  | String c rest =>
      String (if Ascii.eqb c "'"%char then dquote else c) (text rest)
  end.

Definition is_ws (c : ascii) : bool :=
  Ascii.eqb c " "%char || Ascii.eqb c "009"%char || is_lf c || is_cr c.

Fixpoint skip_ws (s : string) : string :=
  match s with
  | String c rest => if is_ws c then skip_ws rest else s
  | EmptyString => s
  end.

Definition digit (c : ascii) : option Z :=
  let n := Z.of_nat (nat_of_ascii c) in
  if ((48 <=? n) && (n <=? 57))%Z then Some (n - 48)%Z else None.

Fixpoint read_digits (s : string) (acc : Z) : Z * string :=
  match s with
  | String c rest =>
      match digit c with
      | Some d => read_digits rest (10 * acc + d)%Z
      | None => (acc, s)
      end
  | EmptyString => (acc, s)
  end.

Definition starts_fraction (s : string) : bool :=
  match s with
  | String c _ =>
      Ascii.eqb c "."%char || Ascii.eqb c "e"%char || Ascii.eqb c "E"%char
  | EmptyString => false
  end.

(** An integer without sign: [0], or digits that do not start with 0. *)
Definition read_nat (s : string) : option (Z * string) :=
  match s with
  | String c rest =>
      match digit c with
      | Some d =>
          let '(n, rest') :=
            if (d =? 0)%Z then (0%Z, rest) else read_digits rest d in
          match rest' with
          | String c' _ =>
              match digit c' with
              | Some _ => None
              | None => if starts_fraction rest' then None else Some (n, rest')
              end
          | EmptyString => Some (n, rest')
          end
      | None => None
      end
  | EmptyString => None
  end.

(** The characters up to the closing quote. *)
Fixpoint read_string (s : string) (acc : string) : option (string * string) :=
  match s with
  | EmptyString => None
  | String c rest =>
      if Ascii.eqb c dquote then Some (acc, rest)
      else if Ascii.eqb c "092"%char then None
      else if (nat_of_ascii c <? 32)%nat then None
      else read_string rest (acc +:+ String c EmptyString)
  end.

Fixpoint strip_prefix (p s : string) : option string :=
  match p, s with
  | EmptyString, _ => Some s
  | String a p', String b s' =>
      if Ascii.eqb a b then strip_prefix p' s' else None
  | _, _ => None
  end.

(** [d[k] = v] on the items of a dict: a key that is present keeps its
    place and takes the new value. *)
Fixpoint dict_set (items : list (string * json)) (k : string) (v : json)
  : list (string * json) :=
  match items with
  | [] => [(k, v)]
  | (k', v') :: rest =>
      if String.eqb k' k then (k, v) :: rest
      else (k', v') :: dict_set rest k v
  end.

Definition literal (s : string) : option (json * string) :=
  match
    strip_prefix "null" s, strip_prefix "true" s, strip_prefix "false" s
  with
  | Some rest, _, _ => Some (JNull, rest)
  | _, Some rest, _ => Some (JBool true, rest)
  | _, _, Some rest => Some (JBool false, rest)
  | _, _, _ => None
  end.

Definition number (s : string) : option (json * string) :=
  match s with
  | String c rest =>
      if Ascii.eqb c "-"%char then
        match read_nat rest with
        | Some (n, rest') => Some (JInt (- n), rest')
        | None => None
        end
      else
        match read_nat s with
        | Some (n, rest') => Some (JInt n, rest')
        | None => None
        end
  | EmptyString => None
  end.

Fixpoint value (fuel : nat) (s : string) : option (json * string) :=
  match fuel with
  | O => None
  | S fuel' =>
      match skip_ws s with
      | EmptyString => None
      | String c rest =>
          if Ascii.eqb c "["%char then
            match skip_ws rest with
            | String c' rest' =>
                if Ascii.eqb c' "]"%char then Some (JArr [], rest')
                else elements fuel' rest []
            | EmptyString => None
            end
          else if Ascii.eqb c "{"%char then
            match skip_ws rest with
            | String c' rest' =>
                if Ascii.eqb c' "}"%char then Some (JObj [], rest')
                else members fuel' rest []
            | EmptyString => None
            end
          else if Ascii.eqb c dquote then
            match read_string rest EmptyString with
            | Some (str, rest') => Some (JStr str, rest')
            | None => None
            end
          else
            match literal (String c rest) with
            | Some r => Some r
            | None => number (String c rest)
            end
      end
  end
with elements (fuel : nat) (s : string) (acc : list json)
  : option (json * string) :=
  match fuel with
  | O => None
  | S fuel' =>
      match value fuel' s with
      | Some (v, rest) =>
          match skip_ws rest with
          | String c rest' =>
              if Ascii.eqb c ","%char then elements fuel' rest' (acc ++ [v])
              else if Ascii.eqb c "]"%char then Some (JArr (acc ++ [v]), rest')
              else None
          | EmptyString => None
          end
      | None => None
      end
  end
with members (fuel : nat) (s : string) (acc : list (string * json))
  : option (json * string) :=
  match fuel with
  | O => None
  | S fuel' =>
      match skip_ws s with
      | String q rest =>
          if Ascii.eqb q dquote then
            match read_string rest EmptyString with
            | Some (k, rest1) =>
                match skip_ws rest1 with
                | String c1 rest2 =>
                    if Ascii.eqb c1 ":"%char then
                      match value fuel' rest2 with
                      | Some (v, rest3) =>
                          match skip_ws rest3 with
                          | String c3 rest4 =>
                              if Ascii.eqb c3 ","%char
                              then members fuel' rest4 (dict_set acc k v)
                              else if Ascii.eqb c3 "}"%char
                              then Some (JObj (dict_set acc k v), rest4)
                              else None
                          | EmptyString => None
                          end
                      | None => None
                      end
                    else None
                | EmptyString => None
                end
            | None => None
            end
          else None
      | EmptyString => None
      end
  end.

Definition loads (s : string) : option json :=
  match value (2 * String.length s + 2) s with
  | Some (v, rest) =>
      match skip_ws rest with
      | EmptyString => Some v
      | _ => None
      end
  | None => None
  end.

End Decoder.


(** ** Notions used to state the properties *)



(** [missing_field data]: one of the lookups of the loop body finds no such
    key in [data]. *)
Definition missing_field (data : json) : Prop :=
  py_getitem data "profile" = Raise (KeyError "profile")
  \/ (exists profile,
        py_getitem data "profile" = Ok profile
        /\ py_getitem profile "test" = Raise (KeyError "test"))
  \/ (exists profile test,
        py_getitem data "profile" = Ok profile
        /\ py_getitem profile "test" = Ok test
        /\ py_truthy test = true
        /\ py_getitem data "filenames" = Raise (KeyError "filenames")).


(** The tokens of the references to the binaries [paths]: each path after
    its marker. *)
Definition references (paths : list json) : list json :=
  flat_map (fun p => [JStr "-object"; p]) paths.

(** [starts_with args prefix]: the first arguments are the strings
    [prefix]. *)
Definition arg_is (a : json) (s : string) : bool :=
  match a with
  | JStr s' => String.eqb s' s
  | _ => false
  end.

Fixpoint starts_with (args : list json) (prefix : list string) : bool :=
  match prefix, args with
  | [], _ => true
  | s :: prefix', a :: args' => arg_is a s && starts_with args' prefix'
  | _ :: _, [] => false
  end.

(** The runs of the merge command and of the export command. *)
Definition is_merge_run (ev : event) : bool :=
  match ev with
  | ERun _ _ args _ _ => starts_with args ["cargo"; "profdata"; "--"; "merge"]
  | _ => false
  end.

Definition is_export_run (ev : event) : bool :=
  match ev with
  | ERun _ _ args _ _ => starts_with args ["cargo"; "cov"; "--"; "export"]
  | _ => false
  end.

Definition run_args (ev : event) : list json :=
  match ev with
  | ERun _ _ args _ _ => args
  | _ => []
  end.

Definition run_dir (ev : event) : string :=
  match ev with
  | ERun _ dir _ _ _ => dir
  | _ => EmptyString
  end.

(** The events of what follows the build messages: the search for the
    shared object (the glob that is not recursive), the report file, the
    export command. *)
Definition is_downstream (ev : event) : bool :=
  match ev with
  | EGlob _ _ recursive _ => negb recursive
  | EOpen _ _ _ _ => true
  | EClose _ => true
  | ERun _ _ _ _ _ => is_export_run ev
  | EInstall _ _ _ _ => false
  end.

(** [made_in env ev]: if [ev] is a command or an installation, it was made
    in the environment [env]. *)
Definition made_in (env : gmap string string) (ev : event) : Prop :=
  match ev with
  | EInstall e _ _ _ => e = env
  | ERun e _ _ _ _ => e = env
  | _ => True
  end.

(** [keeps m]: [m] leaves the environment, the working directory and the
    open files as it found them, by whichever way it ends, and makes all
    its calls in that environment. *)
Definition keeps {A} (m : M A) : Prop :=
  forall s,
    session_env (snd (m s)) = session_env s
    /\ cwd (snd (m s)) = cwd s
    /\ open_files (snd (m s)) = open_files s
    /\ exists evs,
         trace (snd (m s)) = trace s ++ evs
         /\ Forall (made_in (session_env s)) evs.

(** The world [W] with another decoder. *)
Definition with_decoder (loads : string -> option json) (W : World) : World :=
  {| install_ok := install_ok W;
     run_cmd := run_cmd W;
     glob_result := glob_result W;
     open_ok := open_ok W;
     chdir_to := chdir_to W;
     json_loads := loads |}.

Fixpoint contains (needle s : string) : bool :=
  match s with
  | EmptyString => String.eqb needle EmptyString
  | String _ rest => String.prefix needle s || contains needle rest
  end.

(** The environment that [rust_coverage] sets up. *)
Definition coverage_env (env : gmap string string) : gmap string string :=
  <["LLVM_PROFILE_FILE" := "rust-cov/cov-%p.profraw"]>
    (<["RUSTFLAGS" := "-Cinstrument-coverage"]> env).

(** ** A world to run the sessions in *)

(** A world in which every installation, directory change and [open]
    succeeds, a command fails when [fails] says so, the silent run returns
    [messages], the recursive glob finds [profraws] and the other one
    [rust_so]. *)
Definition scripted_world (fails : list json -> bool) (profraws : list string)
    (messages : run_value) (rust_so : list string) : World :=
  {| install_ok := fun _ _ => true;
     run_cmd := fun _ args kw =>
       if fails args then None
       else if silent kw then Some messages else Some RTrue;
     glob_result := fun _ _ recursive =>
       if recursive then profraws else rust_so;
     open_ok := fun _ _ _ => true;
     chdir_to := fun s dir => Some (cwd s +:+ "/" +:+ dir);
     json_loads := Decoder.loads |}.

Definition never_fails (args : list json) : bool := false.

Definition a_session : Session :=
  {| name := "rust_coverage";
     posargs := [];
     virtualenv_location := ".nox/rust_coverage" |}.

Definition initial_state : state :=
  {| session_env := {[ "PATH" := "/usr/bin" ]};
     cwd := "/repo";
     open_files := [];
     trace := [] |}.

(** A [compiler-artifact] message of a test binary, one of a library and
    the closing message of a build. *)
Definition test_message (path : string) : string :=
  Decoder.text "{'reason':'compiler-artifact','profile':{'test':true},"
  +:+ Decoder.text "'filenames':['" +:+ path +:+ Decoder.text "']}".

Definition lib_message : string :=
  Decoder.text "{'reason':'compiler-artifact','profile':{'test':false},"
  +:+ Decoder.text "'filenames':['a.rlib','a.rmeta']}".

Definition build_finished : string :=
  Decoder.text "{'reason':'build-finished','success':true}".


Definition two_paths_message : string :=
  Decoder.text "{'reason':'compiler-artifact','profile':{'test':true},"
  +:+ Decoder.text "'filenames':['a','b']}".

Definition no_filenames_message : string :=
  Decoder.text "{'reason':'compiler-artifact','profile':{'test':true}}".

Definition newline : string := String "010"%char EmptyString.

Definition export_fails (args : list json) : bool :=
  starts_with args ["cargo"; "cov"; "--"; "export"].

(** The silent run returns nothing. *)
Definition world_no_output : World :=
  scripted_world never_fails ["a.profraw"; "b.profraw"] (RStr EmptyString)
    ["x.so"].


(** The output of the silent run has one line, which is not a test
    record. *)
Definition world_no_test_record : World :=
  scripted_world never_fails ["a.profraw"] (RStr build_finished) ["x.so"].

(** The second of the three lines is a test record with two paths. *)
Definition world_two_paths : World :=
  scripted_world never_fails ["a.profraw"]
    (RStr (lib_message +:+ newline +:+ two_paths_message +:+ newline
           +:+ build_finished +:+ newline))
    ["x.so"].

(** The second of the two lines is not JSON. *)
Definition world_undecodable : World :=
  scripted_world never_fails ["a.profraw"]
    (RStr (test_message "bin1" +:+ newline +:+ "not json" +:+ newline))
    ["x.so"].

(** One test record is read, and the export command fails. *)
Definition world_export_fails : World :=
  scripted_world export_fails ["a.profraw"]
    (RStr (test_message "bin1" +:+ newline +:+ build_finished +:+ newline))
    ["x.so"].

(** The clippy run of [rust] fails. *)
Definition clippy_fails (args : list json) : bool :=
  starts_with args ["cargo"; "clippy"].

Definition world_clippy_fails : World :=
  scripted_world clippy_fails [] RNone [].

(** ** The other sessions *)

(** [session.create_tmp()]: nox makes the directory [tmp] of the session's
    environment if it is not there, sets [TMPDIR] in [session.env] to its
    absolute path and returns the directory.  The outside world gives the
    directory with its absolute path, or [None] when the directory cannot
    be made. *)
Record TmpDir : Type := {
  create_tmp_result : state -> option (string * string)
}.

Section OtherSessions.

Variable W : World.
Variable T : TmpDir.

Definition create_tmp : M string := fun s =>
  match create_tmp_result T s with
  | Some (tmpdir, abspath) =>
      (Ok tmpdir, set_env (<["TMPDIR" := abspath]> (session_env s)) s)
  | None => (Raise OSError, s)
  end.

(** Lines 62-113. *)
Definition docs : M unit :=
  install W [".[docs,docstest,sdist,ssh]"] ;;;
  temp_dir <- create_tmp ;;
  session_run W
    (strs ["sphinx-build"; "-T"; "-W"; "-b"; "html"; "-d";
           temp_dir +:+ "/doctrees"; "docs"; "docs/_build/html"])
    default_kw ;;;
  session_run W
    (strs ["sphinx-build"; "-T"; "-W"; "-b"; "latex"; "-d";
           temp_dir +:+ "/doctrees"; "docs"; "docs/_build/latex"])
    default_kw ;;;
  session_run W
    (strs ["sphinx-build"; "-T"; "-W"; "-b"; "doctest"; "-d";
           temp_dir +:+ "/doctrees"; "docs"; "docs/_build/html"])
    default_kw ;;;
  session_run W
    (strs ["sphinx-build"; "-T"; "-W"; "-b"; "spelling"; "docs";
           "docs/_build/html"])
    default_kw ;;;
  session_run W (strs ["python"; "-m"; "build"; "--sdist"]) default_kw ;;;
  session_run W (strs ["twine"; "check"; "dist/*"]) default_kw ;;;
  ret tt.

(** Lines 117-122. *)
Definition docs_linkcheck : M unit :=
  install W [".[docs]"] ;;;
  session_run W
    (strs ["sphinx-build"; "-W"; "-b"; "linkcheck"; "docs";
           "docs/_build/html"])
    default_kw ;;;
  ret tt.

(** Lines 126-139. *)
Definition flake : M unit :=
  install W [".[pep8test,test,ssh,nox]"] ;;;
  session_run W (strs ["ruff"; "."]) default_kw ;;;
  session_run W (strs ["black"; "--check"; "."]) default_kw ;;;
  session_run W (strs ["check-manifest"]) default_kw ;;;
  session_run W
    (strs ["mypy"; "src/cryptography/"; "vectors/cryptography_vectors/";
           "tests/"; "release.py"; "noxfile.py"])
    default_kw ;;;
  ret tt.

End OtherSessions.

(** ** Further notions used to state properties *)

(** A call that failed: an installation or a command that did not succeed,
    a file that could not be opened. *)
Definition failed (ev : event) : bool :=
  match ev with
  | EInstall _ _ _ ok => negb ok
  | ERun _ _ _ _ res => match res with Some _ => false | None => true end
  | EOpen _ _ _ ok => negb ok
  | _ => false
  end.

Definition is_close (ev : event) : bool :=
  match ev with
  | EClose _ => true
  | _ => false
  end.

(** [stops_at_failure evs]: after the first call that failed, if there is
    one, files are closed and nothing else is done. *)
Fixpoint stops_at_failure (evs : list event) : bool :=
  match evs with
  | [] => true
  | ev :: rest =>
      if failed ev then forallb is_close rest else stops_at_failure rest
  end.

(** [fail_fast m]: the calls of [m] stop at the first one that fails, and
    [m] ends without exception only if none failed. *)
Definition fail_fast {A} (m : M A) : Prop :=
  forall s,
  exists evs,
    trace (snd (m s)) = trace s ++ evs
    /\ stops_at_failure evs = true
    /\ (forall a, fst (m s) = Ok a -> existsb failed evs = false).

(** [command_errors_only m]: [m] ends without exception when none of its
    calls failed, and with [CommandFailed] when one did. *)
Definition command_errors_only {A} (m : M A) : Prop :=
  forall s,
  exists evs,
    trace (snd (m s)) = trace s ++ evs
    /\ match fst (m s) with
       | Ok _ => existsb failed evs = false
       | Raise e => e = CommandFailed /\ existsb failed evs = true
       end.

(** [all_events P m]: every call that [m] makes satisfies [P]. *)
Definition all_events {A} (P : event -> Prop) (m : M A) : Prop :=
  forall s,
  exists evs, trace (snd (m s)) = trace s ++ evs /\ Forall P evs.

(** An installation that goes through the constraints file. *)
Definition constrained (ev : event) : Prop :=
  match ev with
  | EInstall _ _ args _ =>
      exists targets,
        args = ["-v"; "-c"; "ci-constraints-requirements.txt"] ++ targets
  | _ => True
  end.

(** A run of sphinx-build has the option [-W]. *)
Definition sphinx_strict (ev : event) : Prop :=
  match ev with
  | ERun _ _ args _ _ =>
      starts_with args ["sphinx-build"] = true -> In (JStr "-W") args
  | _ => True
  end.

(** The extras that [tests] installs for a session of the name [n]. *)
Definition extras_of (n : string) : string :=
  if String.eqb n "tests-ssh" then "test,ssh"
  else if String.eqb n "tests-randomorder" then "test,test-randomorder"
  else "test".

(** The coverage options of pytest for a session of the name [n]. *)
Definition cov_args_of (n : string) : list string :=
  if String.eqb n "tests-nocoverage" then []
  else ["--cov=cryptography"; "--cov=tests"].

(** The argument that follows the option [flag], if [flag] is there. *)
Fixpoint option_value (flag : string) (args : list json) : option json :=
  match args with
  | [] => None
  | a :: rest =>
      if arg_is a flag then
        match rest with
        | v :: _ => Some v
        | [] => None
        end
      else option_value flag rest
  end.


Definition is_object (v : json) : bool :=
  match v with
  | JObj _ => true
  | _ => false
  end.

(** A world for [docs]: all goes well but the sdist build. *)
Definition sdist_fails (args : list json) : bool :=
  starts_with args ["python"; "-m"; "build"].

Definition world_sdist_fails : World :=
  scripted_world sdist_fails [] RNone [].

Definition a_tmp_dir : TmpDir :=
  {| create_tmp_result := fun s =>
       Some (".nox/docs/tmp", cwd s +:+ "/.nox/docs/tmp") |}.

(** A line that is a JSON array. *)
Definition array_message : string := Decoder.text "['a', 1]".

(** A message whose profile is [null]. *)
Definition null_profile_message : string :=
  Decoder.text "{'reason':'compiler-artifact','profile':null}".

(** The builders of [docs] that are given a directory of doctrees. *)
Definition doctree_builder (args : list json) : bool :=
  match option_value "-b" args with
  | Some (JStr b) =>
      String.eqb b "html" || String.eqb b "latex" || String.eqb b "doctest"
  | _ => false
  end.

(** * Properties *)

(** ** The loop over the build messages *)

Lemma references_app (ps qs : list json) :
  references (ps ++ qs) = references ps ++ references qs.
Proof. unfold references. apply flat_map_app. Qed.



Section ParserFacts.

Variable json_loads : string -> option json.



Lemma try_body_missing_field data filenames :
  missing_field data ->
  exists key, try_body data filenames = (Raise (KeyError key), filenames).
Proof.
  unfold try_body.
  intros [Hp | [(profile & Hp & Ht) | (profile & test & Hp & Ht & Htrue & Hf)]].
  - rewrite Hp. eexists. reflexivity.
  - rewrite Hp, Ht. eexists. reflexivity.
  - rewrite Hp, Ht, Htrue, Hf. eexists. reflexivity.
Qed.

Lemma handle_blob_missing_field blob data filenames :
  json_loads blob = Some data ->
  missing_field data ->
  handle_blob json_loads blob filenames = (Ok tt, filenames).
Proof.
  intros Hd Hmissing. unfold handle_blob. rewrite Hd.
  destruct (try_body_missing_field data filenames Hmissing) as (key & ->).
  reflexivity.
Qed.

Lemma handle_blob_undecodable blob filenames :
  json_loads blob = None ->
  handle_blob json_loads blob filenames = (Raise JSONDecodeError, filenames).
Proof. intros Hd. unfold handle_blob. rewrite Hd. reflexivity. Qed.

Lemma for_blobs_app pre post filenames :
  for_blobs json_loads (pre ++ post) filenames =
  match for_blobs json_loads pre filenames with
  | (Ok _, filenames') => for_blobs json_loads post filenames'
  | (Raise e, filenames') => (Raise e, filenames')
  end.
Proof.
  revert filenames. induction pre as [|blob pre IH]; intros filenames.
  - reflexivity.
  - simpl. destruct (handle_blob json_loads blob filenames) as [[[]|e] fl].
    + apply IH.
    + reflexivity.
Qed.

(** A line on which the loop body raises, whatever the list holds, makes
    the whole loop raise: either there or at an earlier line. *)
Lemma for_blobs_raises pre blob post e :
  (forall filenames,
      handle_blob json_loads blob filenames = (Raise e, filenames)) ->
  forall filenames,
  exists e' filenames',
    for_blobs json_loads (pre ++ blob :: post) filenames
    = (Raise e', filenames')
    /\ (forall filenames1,
           for_blobs json_loads pre filenames = (Ok tt, filenames1) ->
           e' = e).
Proof.
  intros Hraise filenames. rewrite for_blobs_app.
  destruct (for_blobs json_loads pre filenames) as [[[]|e0] fl] eqn:Hpre.
  - simpl. rewrite Hraise. exists e, fl. split; [reflexivity|]. reflexivity.
  - exists e0, fl. split; [reflexivity|]. intros fl1 Hfl1. discriminate.
Qed.

Lemma handle_blob_bad_paths blob data profile test paths filenames :
  json_loads blob = Some data ->
  py_getitem data "profile" = Ok profile ->
  py_getitem profile "test" = Ok test ->
  py_truthy test = true ->
  py_getitem data "filenames" = Ok (JArr paths) ->
  List.length paths <> 1 ->
  handle_blob json_loads blob filenames = (Raise AssertionError, filenames).
Proof.
  intros Hd Hp Ht Htrue Hf Hlen. unfold handle_blob, try_body.
  rewrite Hd, Hp, Ht, Htrue, Hf. simpl.
  destruct (Nat.eqb_spec (List.length paths) 1) as [Heq|Hne];
    [contradiction | reflexivity].
Qed.



End ParserFacts.

(** C9. A message of the test profile that has no [filenames] key at all
    is skipped like any message with a missing key: the body of the loop
    raises [KeyError], not [AssertionError], before it has appended
    anything, the exception is caught, and the loop goes on with the list
    of references as it was. *)
Theorem missing_filenames_skipped
    (loads : string -> option json) (blob : string)
    (items : list (string * json)) (profile test : json)
    (rest : list string) (filenames : list json) :
  loads blob = Some (JObj items) ->
  dict_get items "filenames" = None ->
  py_getitem (JObj items) "profile" = Ok profile ->
  py_getitem profile "test" = Ok test ->
  py_truthy test = true ->
  try_body (JObj items) filenames = (Raise (KeyError "filenames"), filenames)
  /\ handle_blob loads blob filenames = (Ok tt, filenames)
  /\ for_blobs loads (blob :: rest) filenames = for_blobs loads rest filenames.
Proof.
  intros Hd Hnone Hp Ht Htrue.
  assert (Hbody : try_body (JObj items) filenames
                  = (Raise (KeyError "filenames"), filenames)).
  { unfold try_body. rewrite Hp, Ht, Htrue. simpl. rewrite Hnone. reflexivity. }
  assert (Hblob : handle_blob loads blob filenames = (Ok tt, filenames)).
  { unfold handle_blob. rewrite Hd, Hbody. reflexivity. }
  repeat split; try assumption.
  simpl. rewrite Hblob. reflexivity.
Qed.

Lemma missing_filenames_skipped_witness :
  try_body
    (JObj [("reason", JStr "compiler-artifact");
           ("profile", JObj [("test", JBool true)])])
    [JStr "-object"; JStr "bin0"]
  = (Raise (KeyError "filenames"), [JStr "-object"; JStr "bin0"])
  /\ handle_blob Decoder.loads no_filenames_message
       [JStr "-object"; JStr "bin0"]
     = (Ok tt, [JStr "-object"; JStr "bin0"])
  /\ for_blobs Decoder.loads [no_filenames_message; test_message "bin1"]
       [JStr "-object"; JStr "bin0"]
     = for_blobs Decoder.loads [test_message "bin1"]
         [JStr "-object"; JStr "bin0"].
Proof.
  apply (missing_filenames_skipped Decoder.loads no_filenames_message
           [("reason", JStr "compiler-artifact");
            ("profile", JObj [("test", JBool true)])]
           (JObj [("test", JBool true)]) (JBool true)).
  - vm_compute. reflexivity.
  - reflexivity.
  - reflexivity.
  - reflexivity.
  - reflexivity.
Defined.



(** ** What every session leaves as it found it *)

Section Keeps.

Variable W : World.
Variable session : Session.

Lemma keeps_ret {A} (a : A) : keeps (ret a).
Proof.
  intros s. simpl. repeat split. exists []. rewrite app_nil_r.
  split; [reflexivity | constructor].
Qed.

Lemma keeps_raise {A} (e : exn) : keeps (@raise A e).
Proof.
  intros s. simpl. repeat split. exists []. rewrite app_nil_r.
  split; [reflexivity | constructor].
Qed.

Lemma keeps_bind {A B} (m : M A) (k : A -> M B) :
  keeps m -> (forall a, keeps (k a)) -> keeps (bind m k).
Proof.
  intros Hm Hk s. unfold bind.
  destruct (Hm s) as (Henv & Hcwd & Hfiles & evs & Htrace & Hevs).
  destruct (m s) as [[a|e] s1]; simpl in *.
  - destruct (Hk a s1) as (Henv' & Hcwd' & Hfiles' & evs' & Htrace' & Hevs').
    rewrite Henv', Hcwd', Hfiles', Htrace', Htrace, Henv in *.
    repeat split; try assumption.
    exists (evs ++ evs'). rewrite app_assoc. split; [reflexivity|].
    apply Forall_app; split; assumption.
  - repeat split; try assumption. exists evs. split; assumption.
Qed.

Lemma keeps_session_install args : keeps (session_install W args).
Proof.
  intros s. unfold session_install. cbv zeta.
  destruct (install_ok W s args); simpl; repeat split;
    eexists [_]; (split; [reflexivity|]); repeat constructor.
Qed.

Lemma keeps_session_run args kw : keeps (session_run W args kw).
Proof.
  intros s. unfold session_run. cbv zeta.
  destruct (run_cmd W s args kw); simpl; repeat split;
    eexists [_]; (split; [reflexivity|]); repeat constructor.
Qed.

Lemma keeps_glob_glob pattern recursive : keeps (glob_glob W pattern recursive).
Proof.
  intros s. unfold glob_glob. simpl. repeat split.
  eexists [_]. split; [reflexivity|]. repeat constructor.
Qed.

Lemma keeps_collect_filenames output : keeps (collect_filenames W output).
Proof.
  intros s. unfold collect_filenames.
  destruct (for_blobs (json_loads W) (splitlines output) []) as [[[]|e] fl].
  - apply (keeps_ret fl).
  - apply (@keeps_raise (list json) e).
Qed.

(** The block of a [with session.chdir] is entered in another directory;
    the directory of before is back when the block is left. *)
Lemma keeps_with_chdir {A} dir (body : M A) :
  keeps body -> keeps (with_chdir W dir body).
Proof.
  intros Hbody s. unfold with_chdir.
  destruct (chdir_to W s dir) as [d|].
  - destruct (Hbody (set_cwd d s)) as (Henv & _ & Hfiles & evs & Htrace & Hevs).
    destruct (body (set_cwd d s)) as [r s1]. simpl in *.
    repeat split; try assumption. exists evs. split; assumption.
  - apply (@keeps_raise A OSError).
Qed.

Lemma remove_file_head f fs : remove_file f (f :: fs) = fs.
Proof. simpl. destruct (decide (f = f)); [reflexivity | contradiction]. Qed.

(** The file of a [with open] is open in the block and closed when the
    block is left. *)
Lemma keeps_with_open {A} fname mode (body : file -> M A) :
  (forall f, keeps (body f)) -> keeps (with_open W fname mode body).
Proof.
  intros Hbody s. unfold with_open. cbv zeta.
  destruct (open_ok W s fname mode).
  - set (f := File fname mode).
    set (s1 := set_open_files _ _).
    destruct (Hbody f s1) as (Henv & Hcwd & Hfiles & evs & Htrace & Hevs).
    destruct (body f s1) as [r s2]. subst s1. simpl in *.
    rewrite Hfiles, remove_file_head.
    repeat split; try assumption.
    exists (EOpen (cwd s) fname mode true :: evs ++ [EClose f]).
    rewrite Htrace, <- !app_assoc. split; [reflexivity|].
    constructor; [exact I|]. apply Forall_app. split; [assumption|].
    constructor; [exact I | constructor].
  - simpl. repeat split. eexists [_]. split; [reflexivity|].
    repeat constructor.
Qed.

Lemma keeps_install args : keeps (install W args).
Proof. apply keeps_session_install. Qed.

Lemma keeps_tests : keeps (tests W session).
Proof.
  unfold tests. cbv zeta.
  repeat first
    [ apply keeps_bind; [|intros ?]
    | apply keeps_install
    | apply keeps_session_run
    | apply keeps_ret ].
Qed.

Lemma keeps_rust : keeps (rust W).
Proof.
  unfold rust.
  repeat first
    [ apply keeps_bind; [|intros ?]
    | apply keeps_with_chdir
    | apply keeps_install
    | apply keeps_session_run
    | apply keeps_ret ].
Qed.

End Keeps.

Lemma rust_coverage_sets_env W session s :
  exists m : M unit,
    keeps m
    /\ rust_coverage W session s
       = m (set_env (coverage_env (session_env s)) s).
Proof.
  unfold rust_coverage.
  match goal with |- exists m, _ /\ bind _ ?k s = _ => exists (k tt) end.
  split; [|reflexivity].
  repeat first
    [ apply keeps_tests
    | apply keeps_session_run
    | apply keeps_glob_glob
    | apply keeps_collect_filenames
    | apply keeps_ret
    | apply keeps_raise
    | apply keeps_with_chdir
    | apply keeps_with_open; intros ?
    | apply keeps_bind; [|intros ?]
    | match goal with |- keeps (if ?b then _ else _) => destruct b end
    | match goal with |- keeps (match ?v with _ => _ end) => destruct v end ].
Qed.

(** C6. The working directory that [rust] and [rust_coverage] change for
    the cargo commands is the one of before when the session ends, by its
    last statement or by an exception of a command that failed, in every
    world. *)
Theorem working_directory_restored (W : World) (session : Session) (s : state) :
  cwd (snd (rust W s)) = cwd s
  /\ cwd (snd (rust_coverage W session s)) = cwd s.
Proof.
  split.
  - apply (keeps_rust W s).
  - destruct (rust_coverage_sets_env W session s) as (m & Hm & ->).
    destruct (Hm (set_env (coverage_env (session_env s)) s)) as (_ & Hcwd & _).
    exact Hcwd.
Qed.

(** C8. [rust_coverage] sets two variables of the session environment,
    [RUSTFLAGS] (the flag that turns the instrumentation on) and
    [LLVM_PROFILE_FILE] (a path with the placeholder [%p]), and nothing
    else; every installation and every command of the session, so the
    instrumented test run too, is made in that environment. *)
Theorem coverage_environment_set (W : World) (session : Session) (s : state) :
  let s' := snd (rust_coverage W session s) in
  session_env s' !! "RUSTFLAGS" = Some "-Cinstrument-coverage"
  /\ session_env s' !! "LLVM_PROFILE_FILE" = Some "rust-cov/cov-%p.profraw"
  /\ contains "%p" "rust-cov/cov-%p.profraw" = true
  /\ delete "RUSTFLAGS" (delete "LLVM_PROFILE_FILE" (session_env s'))
     = delete "RUSTFLAGS" (delete "LLVM_PROFILE_FILE" (session_env s))
  /\ exists evs,
       trace s' = trace s ++ evs /\ Forall (made_in (session_env s')) evs.
Proof.
  cbv zeta.
  destruct (rust_coverage_sets_env W session s) as (m & Hm & ->).
  destruct (Hm (set_env (coverage_env (session_env s)) s))
    as (Henv & _ & _ & evs & Htrace & Hevs).
  rewrite Henv. simpl session_env in *. unfold coverage_env in *.
  repeat split.
  - rewrite lookup_insert_ne by discriminate. apply lookup_insert_eq.
  - apply lookup_insert_eq.
  - rewrite delete_insert_eq.
    rewrite (delete_insert_ne _ "LLVM_PROFILE_FILE" "RUSTFLAGS")
      by discriminate.
    rewrite delete_insert_eq. reflexivity.
  - exists evs. split; assumption.
Qed.

(** ** Running the sessions step by step *)

Section Steps.

Variable W : World.

Lemma bind_bind {A B C} (m : M A) (k : A -> M B) (k' : B -> M C) s :
  bind (bind m k) k' s = bind m (fun a => bind (k a) k') s.
Proof. unfold bind. destruct (m s) as [[a|e] s1]; reflexivity. Qed.

Lemma bind_ret {A B} (a : A) (k : A -> M B) s : bind (ret a) k s = k a s.
Proof. reflexivity. Qed.

Lemma bind_env_update {B} d (k : unit -> M B) s :
  bind (env_update d) k s
  = k tt (set_env (fold_left (fun env kv => <[fst kv := snd kv]> env) d
                     (session_env s)) s).
Proof. reflexivity. Qed.

Lemma bind_session_install {B} args (k : unit -> M B) s :
  bind (session_install W args) k s
  = if install_ok W s args
    then k tt (log (EInstall (session_env s) (cwd s) args true) s)
    else (Raise CommandFailed,
          log (EInstall (session_env s) (cwd s) args false) s).
Proof.
  unfold bind, session_install. cbv zeta.
  destruct (install_ok W s args); reflexivity.
Qed.

Lemma bind_session_run {B} args kw (k : run_value -> M B) s :
  bind (session_run W args kw) k s
  = match run_cmd W s args kw with
    | Some v => k v (log (ERun (session_env s) (cwd s) args kw (Some v)) s)
    | None =>
        (Raise CommandFailed,
         log (ERun (session_env s) (cwd s) args kw None) s)
    end.
Proof.
  unfold bind, session_run. cbv zeta.
  destruct (run_cmd W s args kw); reflexivity.
Qed.

Lemma bind_glob_glob {B} pattern recursive (k : list string -> M B) s :
  bind (glob_glob W pattern recursive) k s
  = k (glob_result W s pattern recursive)
      (log (EGlob (cwd s) pattern recursive
              (glob_result W s pattern recursive)) s).
Proof. reflexivity. Qed.

Lemma bind_collect_filenames {B} output (k : list json -> M B) s :
  bind (collect_filenames W output) k s
  = match for_blobs (json_loads W) (splitlines output) [] with
    | (Ok _, filenames) => k filenames s
    | (Raise e, _) => (Raise e, s)
    end.
Proof.
  unfold bind, collect_filenames.
  destruct (for_blobs (json_loads W) (splitlines output) []) as [[[]|e] fl];
    reflexivity.
Qed.

End Steps.

Ltac normal_state :=
  cbn [log set_cwd set_env set_open_files session_env cwd open_files trace
       fold_left fst snd ret raise
       with_decoder install_ok run_cmd glob_result open_ok chdir_to json_loads];
  rewrite ?remove_file_head.

(** One step of the sessions that stand in the goal: a case for each
    outcome of their first call. *)
Ltac run_step :=
  lazymatch goal with
  | |- context [bind (bind _ _) _ _] => rewrite !bind_bind
  | |- context [bind (ret _) _ _] => rewrite !bind_ret
  | |- context [bind (env_update _) _ _] => rewrite !bind_env_update
  | |- context [bind (session_install _ _) _ _] =>
      rewrite !bind_session_install; normal_state;
      lazymatch goal with
      | |- context [install_ok ?W ?s ?a] => destruct (install_ok W s a)
      end
  | |- context [bind (session_run _ _ _) _ _] =>
      rewrite !bind_session_run; normal_state;
      lazymatch goal with
      | |- context [run_cmd ?W ?s ?a ?kw] =>
          destruct (run_cmd W s a kw) as [?v|]
      end
  | |- context [bind (glob_glob _ _ _) _ _] =>
      rewrite !bind_glob_glob; normal_state;
      lazymatch goal with
      | |- context [glob_result ?W ?s ?p ?r] =>
          generalize (glob_result W s p r); intros ?found
      end
  | |- context [bind (collect_filenames _ _) _ _] =>
      rewrite !bind_collect_filenames; normal_state;
      repeat lazymatch goal with
             | |- context [for_blobs ?l ?b ?acc] =>
                 destruct (for_blobs l b acc) as [[[]|?e] ?filenames] eqn:?
             end
  | |- context [with_chdir _ _ _ _] =>
      unfold with_chdir; normal_state;
      lazymatch goal with
      | |- context [chdir_to ?W ?s ?p] =>
          destruct (chdir_to W s p) as [?dir|]
      end
  | |- context [with_open _ _ _ _ _] =>
      unfold with_open; cbv zeta; normal_state;
      lazymatch goal with
      | |- context [open_ok ?W ?s ?n ?m] => destruct (open_ok W s n m)
      end
  | |- context [if run_truthy ?v then _ else _] =>
      destruct v as [| |[|?c ?output]];
      cbn [run_truthy String.eqb negb]
  end;
  normal_state.

Ltac run_sessions :=
  cbv beta zeta delta [rust_coverage rust tests install];
  repeat run_step.

(** The events of a finished run, as a list. *)
Ltac new_events Htrace :=
  cbn [log set_cwd set_env set_open_files session_env cwd open_files trace]
    in Htrace;
  repeat rewrite <- app_assoc in Htrace;
  apply app_inv_head in Htrace;
  cbn [app] in Htrace;
  subst.

(** The cases of [H : In ev evs] for a list [evs] that is written out. *)
Ltac split_in H :=
  cbn [In] in H;
  repeat lazymatch type of H with
         | _ \/ _ => destruct H as [H | H]; [try discriminate H|]
         | False => contradiction
         end.

(** [In ev evs] for a list [evs] that is written out. *)
Ltac find_event := repeat first [left; reflexivity | right].

(** ** The stages of [rust_coverage] *)

Lemma run_pair {A} (m : M A) (s : state) : m s = (fst (m s), snd (m s)).
Proof. destruct (m s); reflexivity. Qed.

(** The session run from [initial_state] in the world [W]. *)
Local Notation run W := (rust_coverage W a_session initial_state).

(** C10. When the silent run returns no output, [None] or the empty
    string, the session ends there without error: the run is its last
    call, so the shared object is not looked for, no file is opened and the
    export command is not run.  No line is decoded either: with any other
    decoder the session ends in the same state. *)
Theorem no_output_skips_downstream
    (W : World) (session : Session) (s : state) (r : result unit) (s' : state)
    (evs : list event) (env : gmap string string) (dir : string)
    (kw : run_kwargs) (v : run_value) (loads : string -> option json) :
  rust_coverage W session s = (r, s') ->
  trace s' = trace s ++ evs ->
  In (ERun env dir messages_args kw (Some v)) evs ->
  v = RNone \/ v = RStr EmptyString ->
  r = Ok tt
  /\ last evs = Some (ERun env dir messages_args kw (Some v))
  /\ Forall (fun ev => is_downstream ev = false) evs
  /\ rust_coverage (with_decoder loads W) session s = (r, s').
Proof.
  destruct s as [env0 cwd0 files0 trace0].
  intros Hrun Htrace Hin Hv. revert Hrun.
  run_sessions.
  all: intros [= <- <-].
  all: new_events Htrace.
  all: split_in Hin.
  all: injection Hin as <- <- <- <-.
  all: destruct Hv as [Hv | Hv]; try discriminate Hv.
  all: repeat split.
  all: repeat constructor.
Qed.

Lemma no_output_skips_downstream_witness :
  fst (run world_no_output) = Ok tt
  /\ last (trace (snd (run world_no_output)))
     = Some (ERun (coverage_env (session_env initial_state)) "/repo/src/rust/"
               messages_args (RunKwargs true true None)
               (Some (RStr EmptyString)))
  /\ Forall (fun ev => is_downstream ev = false)
       (trace (snd (run world_no_output)))
  /\ run (with_decoder (fun _ => None) world_no_output)
     = (fst (run world_no_output), snd (run world_no_output)).
Proof.
  apply (no_output_skips_downstream world_no_output a_session initial_state
           (fst (run world_no_output)) (snd (run world_no_output))
           (trace (snd (run world_no_output)))
           (coverage_env (session_env initial_state)) "/repo/src/rust/"
           (RunKwargs true true None) (RStr EmptyString) (fun _ => None)).
  - apply run_pair.
  - exact (eq_sym (app_nil_l _)).
  - apply (nth_error_In _ 7). vm_compute. reflexivity.
  - right. reflexivity.
Defined.

(** Two readings of one run of the loop agree. *)
Ltac same_loop :=
  repeat match goal with
         | H1 : for_blobs ?l ?b ?a = _, H2 : for_blobs ?l ?b ?a = _ |- _ =>
             rewrite H1 in H2;
             first [discriminate H2 | injection H2; intros; subst; clear H2]
         end.

(** A line on which the loop body raises ends the session with an
    exception before anything of the export stage is done. *)
Lemma raising_line_aborts
    (W : World) (session : Session) (s : state) (r : result unit) (s' : state)
    (evs : list event) (env : gmap string string) (dir : string)
    (kw : run_kwargs) (output : string) (pre post : list string)
    (blob : string) (e : exn) :
  rust_coverage W session s = (r, s') ->
  trace s' = trace s ++ evs ->
  In (ERun env dir messages_args kw (Some (RStr output))) evs ->
  splitlines output = pre ++ blob :: post ->
  (forall filenames,
      handle_blob (json_loads W) blob filenames = (Raise e, filenames)) ->
  (exists e',
      r = Raise e'
      /\ (forall filenames,
             for_blobs (json_loads W) pre [] = (Ok tt, filenames) -> e' = e))
  /\ Forall (fun ev => is_downstream ev = false) evs.
Proof.
  destruct s as [env0 cwd0 files0 trace0].
  intros Hrun Htrace Hin Hlines Hblob.
  destruct (for_blobs_raises (json_loads W) pre blob post e Hblob [])
    as (e' & fl' & Hloop & Hfirst).
  rewrite <- Hlines in Hloop. clear Hlines Hblob.
  revert Hrun. run_sessions.
  all: intros [= <- <-].
  all: new_events Htrace.
  all: split_in Hin.
  all: injection Hin as <- <- <- <-.
  all: same_loop.
  all: try (cbn [splitlines splitlines_from for_blobs] in Hloop;
            discriminate Hloop).
  all: split; [|repeat constructor].
  all: eexists; split; [reflexivity | exact Hfirst].
Qed.




(** C3, as the code has it.  What decides whether the export stage is done
    is the output of the silent run, not the list of references.  With an
    empty output the list is empty and nothing of the stage is done.  With
    an output that is not empty and that the loop reads to its end, the
    shared object is looked for and the report file is opened, and when
    that succeeds the export command is run on the references read, few or
    none. *)
Theorem export_follows_output
    (W : World) (session : Session) (s : state) (r : result unit) (s' : state)
    (evs : list event) (env : gmap string string) (dir : string)
    (kw : run_kwargs) (output : string) (filenames : list json) :
  rust_coverage W session s = (r, s') ->
  trace s' = trace s ++ evs ->
  In (ERun env dir messages_args kw (Some (RStr output))) evs ->
  for_blobs (json_loads W) (splitlines output) [] = (Ok tt, filenames) ->
  if String.eqb output EmptyString
  then filenames = [] /\ Forall (fun ev => is_downstream ev = false) evs
  else exists rust_so ok,
      In (EGlob dir (virtualenv_location session
                     +:+ "/lib/**/site-packages"
                     +:+ "/cryptography/hazmat/bindings/_rust_abi3.so")
            false rust_so) evs
      /\ In (EOpen dir "../../cov.lcov" "wb" ok) evs
      /\ (ok = false
          \/ exists res,
               In (ERun env dir (export_args rust_so filenames)
                     (RunKwargs true false (Some (File "../../cov.lcov" "wb")))
                     res) evs).
Proof.
  destruct s as [env0 cwd0 files0 trace0].
  intros Hrun Htrace Hin Hloop. revert Hrun.
  run_sessions.
  all: intros [= <- <-].
  all: new_events Htrace.
  all: split_in Hin.
  all: injection Hin as <- <- <- <-.
  all: same_loop.
  all: cbn [String.eqb].
  - cbn [splitlines splitlines_from for_blobs] in Hloop.
    injection Hloop as <-. split; [reflexivity | repeat constructor].
  - do 2 eexists. split; [find_event|]. split; [find_event|].
    first [left; reflexivity | right; eexists; find_event].
  - do 2 eexists. split; [find_event|]. split; [find_event|].
    first [left; reflexivity | right; eexists; find_event].
  - do 2 eexists. split; [find_event|]. split; [find_event|].
    first [left; reflexivity | right; eexists; find_event].
Qed.


Lemma export_follows_output_witness :
  if String.eqb build_finished EmptyString
  then @nil json = []
       /\ Forall (fun ev => is_downstream ev = false)
            (trace (snd (run world_no_test_record)))
  else exists rust_so ok,
      In (EGlob "/repo/src/rust/"
            (virtualenv_location a_session
             +:+ "/lib/**/site-packages"
             +:+ "/cryptography/hazmat/bindings/_rust_abi3.so")
            false rust_so) (trace (snd (run world_no_test_record)))
      /\ In (EOpen "/repo/src/rust/" "../../cov.lcov" "wb" ok)
           (trace (snd (run world_no_test_record)))
      /\ (ok = false
          \/ exists res,
               In (ERun (coverage_env (session_env initial_state))
                     "/repo/src/rust/" (export_args rust_so [])
                     (RunKwargs true false (Some (File "../../cov.lcov" "wb")))
                     res) (trace (snd (run world_no_test_record)))).
Proof.
  apply (export_follows_output world_no_test_record a_session initial_state
           (fst (run world_no_test_record)) (snd (run world_no_test_record))
           (trace (snd (run world_no_test_record)))
           (coverage_env (session_env initial_state)) "/repo/src/rust/"
           (RunKwargs true true None) build_finished []).
  - apply run_pair.
  - exact (eq_sym (app_nil_l _)).
  - apply (nth_error_In _ 7). vm_compute. reflexivity.
  - vm_compute. reflexivity.
Defined.

(** C3, as the spec has it, fails: the one line of the output is not a
    test record, so the list of references is empty, and the report file is
    opened and the export command run all the same, on no reference. *)
Lemma export_runs_without_references :
  for_blobs (json_loads world_no_test_record) (splitlines build_finished) []
  = (Ok tt, [])
  /\ nth_error (trace (snd (run world_no_test_record))) 9
     = Some (EOpen "/repo/src/rust/" "../../cov.lcov" "wb" true)
  /\ map run_args
       (List.filter is_export_run (trace (snd (run world_no_test_record))))
     = [export_args ["x.so"] []].
Proof. vm_compute. repeat split. Qed.

(** C7. When the export command is run, its standard output is the file
    [../../cov.lcov] opened just before in mode [wb], and the file is
    closed just after, as the last thing the session does, whether the
    command succeeded or failed; no file is left open. *)
Theorem report_written_and_closed
    (W : World) (session : Session) (s : state) (r : result unit) (s' : state)
    (evs : list event) (env : gmap string string) (dir : string)
    (args : list json) (kw : run_kwargs) (res : option run_value) :
  rust_coverage W session s = (r, s') ->
  trace s' = trace s ++ evs ->
  In (ERun env dir args kw res) evs ->
  is_export_run (ERun env dir args kw res) = true ->
  stdout kw = Some (File "../../cov.lcov" "wb")
  /\ (exists pre,
        evs = pre ++ [EOpen dir "../../cov.lcov" "wb" true;
                      ERun env dir args kw res;
                      EClose (File "../../cov.lcov" "wb")])
  /\ open_files s' = open_files s.
Proof.
  destruct s as [env0 cwd0 files0 trace0].
  intros Hrun Htrace Hin Hexport. revert Hrun.
  run_sessions.
  all: intros [= <- <-].
  all: new_events Htrace.
  all: split_in Hin.
  all: try (injection Hin as <- <- <- <- <-; discriminate Hexport).
  all: injection Hin as <- <- <- <- <-.
  all: split; [reflexivity|]; split; [|reflexivity].
  all: match goal with
       | |- exists pre, ?l = pre ++ _ =>
           exists (firstn (List.length l - 3) l); reflexivity
       end.
Qed.

Lemma report_written_and_closed_witness :
  stdout (RunKwargs true false (Some (File "../../cov.lcov" "wb")))
  = Some (File "../../cov.lcov" "wb")
  /\ (exists pre,
        trace (snd (run world_export_fails))
        = pre ++ [EOpen "/repo/src/rust/" "../../cov.lcov" "wb" true;
                  ERun (coverage_env (session_env initial_state))
                    "/repo/src/rust/"
                    (export_args ["x.so"] (references [JStr "bin1"]))
                    (RunKwargs true false (Some (File "../../cov.lcov" "wb")))
                    None;
                  EClose (File "../../cov.lcov" "wb")])
  /\ open_files (snd (run world_export_fails)) = open_files initial_state.
Proof.
  apply (report_written_and_closed world_export_fails a_session initial_state
           (fst (run world_export_fails)) (snd (run world_export_fails))
           (trace (snd (run world_export_fails)))).
  - apply run_pair.
  - exact (eq_sym (app_nil_l _)).
  - apply (nth_error_In _ 10). vm_compute. reflexivity.
  - reflexivity.
Defined.

(** C4. A line that decodes to a message of the test profile whose list of
    paths has no element, or more than one, makes the loop body raise
    [AssertionError].  The session then ends with an exception, that one
    when the lines before were read without error, and nothing of the
    export stage is done: the shared object is not looked for, no file is
    opened, the export command is not run. *)
Theorem bad_path_count_aborts
    (W : World) (session : Session) (s : state) (r : result unit) (s' : state)
    (evs : list event) (env : gmap string string) (dir : string)
    (kw : run_kwargs) (output : string) (pre post : list string)
    (blob : string) (data profile test : json) (paths : list json) :
  rust_coverage W session s = (r, s') ->
  trace s' = trace s ++ evs ->
  In (ERun env dir messages_args kw (Some (RStr output))) evs ->
  splitlines output = pre ++ blob :: post ->
  json_loads W blob = Some data ->
  py_getitem data "profile" = Ok profile ->
  py_getitem profile "test" = Ok test ->
  py_truthy test = true ->
  py_getitem data "filenames" = Ok (JArr paths) ->
  List.length paths <> 1 ->
  (forall filenames,
      handle_blob (json_loads W) blob filenames
      = (Raise AssertionError, filenames))
  /\ (exists e,
        r = Raise e
        /\ (forall filenames,
               for_blobs (json_loads W) pre [] = (Ok tt, filenames) ->
               e = AssertionError))
  /\ Forall (fun ev => is_downstream ev = false) evs.
Proof.
  intros Hrun Htrace Hin Hlines Hdata Hprofile Htest Htrue Hpaths Hlen.
  assert (Hblob : forall filenames,
             handle_blob (json_loads W) blob filenames
             = (Raise AssertionError, filenames)).
  { intros filenames. eapply handle_blob_bad_paths; eassumption. }
  split; [exact Hblob|].
  eapply raising_line_aborts; eassumption.
Qed.

Lemma bad_path_count_aborts_witness :
  (forall filenames,
      handle_blob (json_loads world_two_paths) two_paths_message filenames
      = (Raise AssertionError, filenames))
  /\ (exists e,
        fst (run world_two_paths) = Raise e
        /\ (forall filenames,
               for_blobs (json_loads world_two_paths) [lib_message] []
               = (Ok tt, filenames) ->
               e = AssertionError))
  /\ Forall (fun ev => is_downstream ev = false)
       (trace (snd (run world_two_paths))).
Proof.
  apply (bad_path_count_aborts world_two_paths a_session initial_state
           (fst (run world_two_paths)) (snd (run world_two_paths))
           (trace (snd (run world_two_paths)))
           (coverage_env (session_env initial_state)) "/repo/src/rust/"
           (RunKwargs true true None)
           (lib_message +:+ newline +:+ two_paths_message +:+ newline
            +:+ build_finished +:+ newline)
           [lib_message] [build_finished] two_paths_message
           (JObj [("reason", JStr "compiler-artifact");
                  ("profile", JObj [("test", JBool true)]);
                  ("filenames", JArr [JStr "a"; JStr "b"])])
           (JObj [("test", JBool true)]) (JBool true) [JStr "a"; JStr "b"]).
  - apply run_pair.
  - exact (eq_sym (app_nil_l _)).
  - apply (nth_error_In _ 7). vm_compute. reflexivity.
  - vm_compute. reflexivity.
  - vm_compute. reflexivity.
  - reflexivity.
  - reflexivity.
  - reflexivity.
  - reflexivity.
  - simpl. lia.
Defined.

(** C2, as the code has it.  A line that decodes to a message in which one
    of the keys looked up is missing is skipped: the list of references
    stays as it was and the loop goes on.  A line that does not decode is
    not skipped: [json.loads] is called outside the [try] statement, its
    exception ends the session, and nothing of the export stage is done. *)
Theorem missing_field_skipped_decode_error_raised
    (W : World) (session : Session) (s : state) (r : result unit) (s' : state)
    (evs : list event) (env : gmap string string) (dir : string)
    (kw : run_kwargs) (output : string) (pre post : list string)
    (blob : string) :
  (forall data rest filenames,
      json_loads W blob = Some data ->
      missing_field data ->
      handle_blob (json_loads W) blob filenames = (Ok tt, filenames)
      /\ for_blobs (json_loads W) (blob :: rest) filenames
         = for_blobs (json_loads W) rest filenames)
  /\ (json_loads W blob = None ->
      rust_coverage W session s = (r, s') ->
      trace s' = trace s ++ evs ->
      In (ERun env dir messages_args kw (Some (RStr output))) evs ->
      splitlines output = pre ++ blob :: post ->
      (exists e,
          r = Raise e
          /\ (forall filenames,
                 for_blobs (json_loads W) pre [] = (Ok tt, filenames) ->
                 e = JSONDecodeError))
      /\ Forall (fun ev => is_downstream ev = false) evs).
Proof.
  split.
  - intros data rest filenames Hdata Hmissing.
    pose proof (handle_blob_missing_field _ _ _ filenames Hdata Hmissing)
      as Hblob.
    split; [exact Hblob|]. simpl. rewrite Hblob. reflexivity.
  - intros Hnone Hrun Htrace Hin Hlines.
    eapply raising_line_aborts; try eassumption.
    intros filenames. apply handle_blob_undecodable. exact Hnone.
Qed.

Lemma missing_field_skipped_decode_error_raised_witness :
  (handle_blob Decoder.loads build_finished [JStr "-object"; JStr "bin0"]
   = (Ok tt, [JStr "-object"; JStr "bin0"])
   /\ for_blobs Decoder.loads [build_finished; test_message "bin1"]
        [JStr "-object"; JStr "bin0"]
      = for_blobs Decoder.loads [test_message "bin1"]
          [JStr "-object"; JStr "bin0"])
  /\ ((exists e,
          fst (run world_undecodable) = Raise e
          /\ (forall filenames,
                 for_blobs Decoder.loads [test_message "bin1"] []
                 = (Ok tt, filenames) ->
                 e = JSONDecodeError))
      /\ Forall (fun ev => is_downstream ev = false)
           (trace (snd (run world_undecodable)))).
Proof.
  split.
  - apply (proj1 (missing_field_skipped_decode_error_raised
                    world_undecodable a_session initial_state
                    (Ok tt) initial_state [] ∅ EmptyString default_kw
                    EmptyString [] [] build_finished)
             (JObj [("reason", JStr "build-finished");
                    ("success", JBool true)])).
    + vm_compute. reflexivity.
    + left. reflexivity.
  - apply (proj2 (missing_field_skipped_decode_error_raised
                    world_undecodable a_session initial_state
                    (fst (run world_undecodable)) (snd (run world_undecodable))
                    (trace (snd (run world_undecodable)))
                    (coverage_env (session_env initial_state))
                    "/repo/src/rust/" (RunKwargs true true None)
                    (test_message "bin1" +:+ newline +:+ "not json" +:+ newline)
                    [test_message "bin1"] [] "not json")).
    + vm_compute. reflexivity.
    + apply run_pair.
    + exact (eq_sym (app_nil_l _)).
    + apply (nth_error_In _ 7). vm_compute. reflexivity.
    + vm_compute. reflexivity.
Defined.

(** C2, as the spec has it, fails: a line that is not JSON is not skipped.
    The loop raises on it, and the session ends with that exception. *)
Lemma undecodable_line_not_skipped :
  Decoder.loads "not json" = None
  /\ handle_blob Decoder.loads "not json" [JStr "-object"; JStr "bin1"]
     = (Raise JSONDecodeError, [JStr "-object"; JStr "bin1"])
  /\ fst (run world_undecodable) = Raise JSONDecodeError.
Proof. vm_compute. repeat split. Qed.

(** ** The sessions on concrete worlds *)

(** All goes well: two fragments are merged, one test binary is read from
    the build messages, the report is exported. *)
Example coverage_run_succeeds :
  let W := scripted_world never_fails ["a.profraw"; "b.profraw"]
             (RStr (test_message "bin1" +:+ newline +:+ build_finished
                    +:+ newline)) ["x.so"] in
  fst (run W) = Ok tt
  /\ map run_args (List.filter is_merge_run (trace (snd (run W))))
     = [merge_args ["a.profraw"; "b.profraw"]]
  /\ map run_args (List.filter is_export_run (trace (snd (run W))))
     = [export_args ["x.so"] [JStr "-object"; JStr "bin1"]]
  /\ cwd (snd (run W)) = "/repo"
  /\ open_files (snd (run W)) = [].
Proof. vm_compute. repeat split. Qed.

(** The clippy run of [rust] fails: the session ends with the exception,
    the commands were run in [src/rust/], and the directory of before is
    back. *)
Example rust_fails_and_restores :
  fst (rust world_clippy_fails initial_state) = Raise CommandFailed
  /\ map run_dir (trace (snd (rust world_clippy_fails initial_state)))
     = [EmptyString; "/repo/src/rust/"; "/repo/src/rust/"]
  /\ cwd (snd (rust world_clippy_fails initial_state)) = "/repo".
Proof. vm_compute. repeat split. Qed.

(** The export command fails: the session ends with the exception and the
    report file is closed. *)
Example export_fails_and_closes :
  fst (run world_export_fails) = Raise CommandFailed
  /\ last (trace (snd (run world_export_fails)))
     = Some (EClose (File "../../cov.lcov" "wb"))
  /\ open_files (snd (run world_export_fails)) = []
  /\ cwd (snd (run world_export_fails)) = "/repo".
Proof. vm_compute. repeat split. Qed.

(** * Further properties *)

(** ** The list of references *)

Lemma len_one_iter (v : json) :
  py_len v = Ok 1 -> exists x, py_iter v = Ok [x].
Proof.
  destruct v as [| b | n | nz | str | elems | items]; simpl; try discriminate.
  - destruct str as [|c [|c' str]]; simpl; try discriminate.
    intros _. eexists. reflexivity.
  - destruct elems as [|x [|y elems]]; simpl; try discriminate.
    intros _. eexists. reflexivity.
  - destruct items as [|x [|y items]]; simpl; try discriminate.
    intros _. eexists. reflexivity.
Qed.

Lemma try_body_appends (data : json) (filenames : list json) :
  exists paths,
    snd (try_body data filenames) = filenames ++ references paths
    /\ List.length paths <= 1.
Proof.
  assert (Hsame : exists paths : list json,
             filenames = filenames ++ references paths
             /\ List.length paths <= 1).
  { exists []. simpl. rewrite app_nil_r. split; [reflexivity | lia]. }
  unfold try_body.
  destruct (py_getitem data "profile") as [profile|e]; [|exact Hsame].
  destruct (py_getitem profile "test") as [test|e]; [|exact Hsame].
  destruct (py_truthy test); [|exact Hsame].
  destruct (py_getitem data "filenames") as [fs|e]; [|exact Hsame].
  destruct (py_len fs) as [n|e] eqn:Hlen; [|exact Hsame].
  destruct (Nat.eqb_spec n 1) as [->|Hne]; [|exact Hsame].
  destruct (len_one_iter fs Hlen) as (x & ->).
  exists [x]. simpl. rewrite <- app_assoc. split; [reflexivity | lia].
Qed.

Lemma handle_blob_appends loads (blob : string) (filenames : list json) :
  exists paths,
    snd (handle_blob loads blob filenames) = filenames ++ references paths
    /\ List.length paths <= 1.
Proof.
  unfold handle_blob. destruct (loads blob) as [data|].
  - destruct (try_body_appends data filenames) as (paths & Hsnd & Hlen).
    exists paths. split; [|exact Hlen]. rewrite <- Hsnd.
    destruct (try_body data filenames) as [[[]|e] fl]; simpl;
      [reflexivity|]. destruct (is_KeyError e); reflexivity.
  - exists []. simpl. rewrite app_nil_r. split; [reflexivity | lia].
Qed.

Lemma for_blobs_appends loads (blobs : list string) (filenames : list json) :
  exists paths,
    snd (for_blobs loads blobs filenames) = filenames ++ references paths
    /\ List.length paths <= List.length blobs.
Proof.
  revert filenames. induction blobs as [|blob blobs IH]; intros filenames.
  - exists []. simpl. rewrite app_nil_r. split; [reflexivity | lia].
  - simpl for_blobs.
    destruct (handle_blob_appends loads blob filenames) as (ps & Hsnd & Hlen).
    destruct (handle_blob loads blob filenames) as [[[]|e] fl]; simpl in Hsnd.
    + destruct (IH fl) as (qs & Hqs & Hlen').
      exists (ps ++ qs). rewrite Hqs, Hsnd, references_app, app_assoc.
      split; [reflexivity|]. rewrite length_app. simpl. lia.
    + exists ps. simpl. split; [exact Hsnd | lia].
Qed.

(** X1. Whatever the lines are and however the loop ends, with or without
    exception, the list it leaves is the list it was given followed by
    whole references, marker then path: a marker is never left without its
    path, nothing that was in the list is changed, and no line gives more
    than one reference. *)
Theorem references_stay_paired
    (loads : string -> option json) (blobs : list string)
    (filenames : list json) :
  exists paths,
    snd (for_blobs loads blobs filenames) = filenames ++ references paths
    /\ List.length paths <= List.length blobs.
Proof. apply for_blobs_appends. Qed.

(** X2. A line that decodes to something that is not an object (an array,
    a string, a number, [null]), or to an object whose profile is not an
    object, is not skipped: the lookup raises [TypeError], which the
    [except KeyError] clause lets through, and the loop ends there with the
    list as it was. *)
Theorem non_object_message_raises
    (loads : string -> option json) (blob : string) (data : json)
    (rest : list string) (filenames : list json) :
  loads blob = Some data ->
  is_object data = false
  \/ (exists profile,
        py_getitem data "profile" = Ok profile /\ is_object profile = false) ->
  handle_blob loads blob filenames = (Raise TypeError, filenames)
  /\ for_blobs loads (blob :: rest) filenames = (Raise TypeError, filenames).
Proof.
  intros Hdata Hshape.
  assert (Hblob : handle_blob loads blob filenames
                  = (Raise TypeError, filenames)).
  { unfold handle_blob, try_body. rewrite Hdata.
    destruct Hshape as [Hobj | (profile & Hprofile & Hobj)].
    - destruct data; try discriminate Hobj; reflexivity.
    - rewrite Hprofile. destruct profile; try discriminate Hobj; reflexivity. }
  split; [exact Hblob|]. simpl. rewrite Hblob. reflexivity.
Qed.

Lemma non_object_message_raises_witness :
  (handle_blob Decoder.loads array_message [JStr "-object"; JStr "bin0"]
   = (Raise TypeError, [JStr "-object"; JStr "bin0"])
   /\ for_blobs Decoder.loads [array_message; test_message "bin1"]
        [JStr "-object"; JStr "bin0"]
      = (Raise TypeError, [JStr "-object"; JStr "bin0"]))
  /\ (handle_blob Decoder.loads null_profile_message []
      = (Raise TypeError, [])
      /\ for_blobs Decoder.loads [null_profile_message] []
         = (Raise TypeError, [])).
Proof.
  split.
  - apply (non_object_message_raises Decoder.loads array_message
             (JArr [JStr "a"; JInt 1])).
    + vm_compute. reflexivity.
    + left. reflexivity.
  - apply (non_object_message_raises Decoder.loads null_profile_message
             (JObj [("reason", JStr "compiler-artifact"); ("profile", JNull)])).
    + vm_compute. reflexivity.
    + right. exists JNull. split; reflexivity.
Defined.

(** X14. A message whose test indicator is there and is not true in
    Python's sense ([false], [null], [0], an empty string, list or object)
    is passed over without a look at its paths: it may have no
    [filenames], or any number of them, and the list of references stays
    as it was. *)
Theorem falsy_test_indicator_skipped
    (loads : string -> option json) (blob : string)
    (data profile test : json) (rest : list string) (filenames : list json) :
  loads blob = Some data ->
  py_getitem data "profile" = Ok profile ->
  py_getitem profile "test" = Ok test ->
  py_truthy test = false ->
  try_body data filenames = (Ok tt, filenames)
  /\ handle_blob loads blob filenames = (Ok tt, filenames)
  /\ for_blobs loads (blob :: rest) filenames = for_blobs loads rest filenames.
Proof.
  intros Hdata Hprofile Htest Hfalse.
  assert (Hbody : try_body data filenames = (Ok tt, filenames)).
  { unfold try_body. rewrite Hprofile, Htest, Hfalse. reflexivity. }
  assert (Hblob : handle_blob loads blob filenames = (Ok tt, filenames)).
  { unfold handle_blob. rewrite Hdata, Hbody. reflexivity. }
  repeat split; try assumption. simpl. rewrite Hblob. reflexivity.
Qed.

Lemma falsy_test_indicator_skipped_witness :
  try_body
    (JObj [("reason", JStr "compiler-artifact");
           ("profile", JObj [("test", JBool false)]);
           ("filenames", JArr [JStr "a.rlib"; JStr "a.rmeta"])])
    [JStr "-object"; JStr "bin0"]
  = (Ok tt, [JStr "-object"; JStr "bin0"])
  /\ handle_blob Decoder.loads lib_message [JStr "-object"; JStr "bin0"]
     = (Ok tt, [JStr "-object"; JStr "bin0"])
  /\ for_blobs Decoder.loads [lib_message; test_message "bin1"]
       [JStr "-object"; JStr "bin0"]
     = for_blobs Decoder.loads [test_message "bin1"]
         [JStr "-object"; JStr "bin0"].
Proof.
  apply (falsy_test_indicator_skipped Decoder.loads lib_message
           (JObj [("reason", JStr "compiler-artifact");
                  ("profile", JObj [("test", JBool false)]);
                  ("filenames", JArr [JStr "a.rlib"; JStr "a.rmeta"])])
           (JObj [("test", JBool false)]) (JBool false)).
  - vm_compute. reflexivity.
  - reflexivity.
  - reflexivity.
  - reflexivity.
Defined.

(** ** Sessions stop at the first call that fails *)

Lemma stops_at_failure_app (evs evs' : list event) :
  stops_at_failure (evs ++ evs')
  = if existsb failed evs
    then stops_at_failure evs && forallb is_close evs'
    else stops_at_failure evs'.
Proof.
  induction evs as [|ev evs IH]; simpl; [reflexivity|].
  destruct (failed ev); simpl.
  - apply forallb_app.
  - exact IH.
Qed.

Section FailFast.

Variable W : World.

Lemma fail_fast_ret {A} (a : A) : fail_fast (ret a).
Proof.
  intros s. exists []. simpl. rewrite app_nil_r. repeat split.
Qed.

Lemma fail_fast_raise {A} (e : exn) : fail_fast (@raise A e).
Proof.
  intros s. exists []. simpl. rewrite app_nil_r. repeat split.
Qed.

Lemma fail_fast_bind {A B} (m : M A) (k : A -> M B) :
  fail_fast m -> (forall a, fail_fast (k a)) -> fail_fast (bind m k).
Proof.
  intros Hm Hk s. unfold bind.
  destruct (Hm s) as (evs & Htrace & Hstop & Hok).
  destruct (m s) as [[a|e] s1]; simpl in *.
  - destruct (Hk a s1) as (evs' & Htrace' & Hstop' & Hok').
    exists (evs ++ evs'). rewrite Htrace', Htrace, app_assoc.
    split; [reflexivity|].
    rewrite stops_at_failure_app, existsb_app, (Hok a eq_refl). simpl.
    split; [exact Hstop' | exact Hok'].
  - exists evs. repeat split; try assumption. intros a Ha. discriminate Ha.
Qed.

Lemma fail_fast_session_install args : fail_fast (session_install W args).
Proof.
  intros s. unfold session_install. cbv zeta.
  destruct (install_ok W s args); simpl; eexists [_];
    (split; [reflexivity|]); simpl; split; try reflexivity;
    intros a Ha; try reflexivity; discriminate Ha.
Qed.

Lemma fail_fast_session_run args kw : fail_fast (session_run W args kw).
Proof.
  intros s. unfold session_run. cbv zeta.
  destruct (run_cmd W s args kw); simpl; eexists [_];
    (split; [reflexivity|]); simpl; split; try reflexivity;
    intros a Ha; try reflexivity; discriminate Ha.
Qed.

Lemma fail_fast_glob_glob pattern recursive :
  fail_fast (glob_glob W pattern recursive).
Proof.
  intros s. unfold glob_glob. simpl. eexists [_].
  split; [reflexivity|]. simpl. split; reflexivity.
Qed.

Lemma fail_fast_collect_filenames output :
  fail_fast (collect_filenames W output).
Proof.
  intros s. unfold collect_filenames.
  destruct (for_blobs (json_loads W) (splitlines output) []) as [[[]|e] fl].
  - apply (fail_fast_ret fl).
  - apply (@fail_fast_raise (list json) e).
Qed.

Lemma fail_fast_with_chdir {A} dir (body : M A) :
  fail_fast body -> fail_fast (with_chdir W dir body).
Proof.
  intros Hbody s. unfold with_chdir.
  destruct (chdir_to W s dir) as [d|].
  - destruct (Hbody (set_cwd d s)) as (evs & Htrace & Hstop & Hok).
    destruct (body (set_cwd d s)) as [r s1]. simpl in *.
    exists evs. repeat split; assumption.
  - apply (@fail_fast_raise A OSError).
Qed.

Lemma fail_fast_with_open {A} fname mode (body : file -> M A) :
  (forall f, fail_fast (body f)) -> fail_fast (with_open W fname mode body).
Proof.
  intros Hbody s. unfold with_open. cbv zeta.
  destruct (open_ok W s fname mode).
  - set (f := File fname mode).
    set (s1 := set_open_files _ _).
    destruct (Hbody f s1) as (evs & Htrace & Hstop & Hok).
    destruct (body f s1) as [r s2]. subst s1. simpl in *.
    exists (EOpen (cwd s) fname mode true :: evs ++ [EClose f]).
    rewrite Htrace, <- !app_assoc. split; [reflexivity|].
    simpl. rewrite stops_at_failure_app, existsb_app, Hstop. simpl.
    split.
    + destruct (existsb failed evs); reflexivity.
    + intros a Ha. rewrite (Hok a Ha). reflexivity.
  - simpl. eexists [_]. split; [reflexivity|]. simpl.
    split; [reflexivity|]. intros a Ha. discriminate Ha.
Qed.

Lemma fail_fast_create_tmp (T : TmpDir) : fail_fast (create_tmp T).
Proof.
  intros s. unfold create_tmp.
  destruct (create_tmp_result T s) as [[tmpdir abspath]|]; simpl;
    exists []; rewrite app_nil_r; repeat split.
Qed.

Lemma fail_fast_env_update d : fail_fast (env_update d).
Proof.
  intros s. exists []. simpl. rewrite app_nil_r. repeat split.
Qed.

End FailFast.

(** The sessions are built from calls that keep [fail_fast]. *)
Ltac fail_fast_steps :=
  repeat first
    [ apply fail_fast_session_install
    | apply fail_fast_session_run
    | apply fail_fast_glob_glob
    | apply fail_fast_collect_filenames
    | apply fail_fast_create_tmp
    | apply fail_fast_env_update
    | apply fail_fast_ret
    | apply fail_fast_raise
    | apply fail_fast_with_chdir
    | apply fail_fast_with_open; intros ?
    | apply fail_fast_bind; [|intros ?]
    | match goal with |- fail_fast (if ?b then _ else _) => destruct b end
    | match goal with
      | |- fail_fast (match ?v with _ => _ end) => destruct v
      end ].

(** X3. In every session, once an installation or a command has failed, or
    the report file could not be opened, nothing more is installed, run,
    looked for or opened (a file that is open is closed); and a session
    that ends without exception has had no call that failed. *)
Theorem sessions_stop_at_failure
    (W : World) (T : TmpDir) (session : Session) :
  fail_fast (tests W session)
  /\ fail_fast (docs W T)
  /\ fail_fast (docs_linkcheck W)
  /\ fail_fast (flake W)
  /\ fail_fast (rust W)
  /\ fail_fast (rust_coverage W session).
Proof.
  repeat split.
  - unfold tests, install. cbv zeta. fail_fast_steps.
  - unfold docs, install. fail_fast_steps.
  - unfold docs_linkcheck, install. fail_fast_steps.
  - unfold flake, install. fail_fast_steps.
  - unfold rust, install. fail_fast_steps.
  - unfold rust_coverage, tests, install. cbv zeta. fail_fast_steps.
Qed.

(** ** Sessions that can only fail by a command *)

Section CommandErrors.

Variable W : World.

Lemma command_errors_only_ret {A} (a : A) : command_errors_only (ret a).
Proof.
  intros s. exists []. simpl. rewrite app_nil_r. split; reflexivity.
Qed.

Lemma command_errors_only_bind {A B} (m : M A) (k : A -> M B) :
  command_errors_only m -> (forall a, command_errors_only (k a)) ->
  command_errors_only (bind m k).
Proof.
  intros Hm Hk s. unfold bind.
  destruct (Hm s) as (evs & Htrace & Hres).
  destruct (m s) as [[a|e] s1]; simpl in *.
  - destruct (Hk a s1) as (evs' & Htrace' & Hres').
    exists (evs ++ evs'). rewrite Htrace', Htrace, app_assoc.
    split; [reflexivity|]. rewrite existsb_app, Hres. exact Hres'.
  - exists evs. split; assumption.
Qed.

Lemma command_errors_only_session_install args :
  command_errors_only (session_install W args).
Proof.
  intros s. unfold session_install. cbv zeta.
  destruct (install_ok W s args); simpl; eexists [_];
    (split; [reflexivity|]); simpl; repeat split.
Qed.

Lemma command_errors_only_session_run args kw :
  command_errors_only (session_run W args kw).
Proof.
  intros s. unfold session_run. cbv zeta.
  destruct (run_cmd W s args kw); simpl; eexists [_];
    (split; [reflexivity|]); simpl; repeat split.
Qed.

End CommandErrors.

Ltac command_errors_steps :=
  repeat first
    [ apply command_errors_only_session_install
    | apply command_errors_only_session_run
    | apply command_errors_only_ret
    | apply command_errors_only_bind; [|intros ?] ].

(** X4. The sessions [tests], [docs_linkcheck] and [flake] have no other
    way to fail than a command or an installation that fails: they end
    without exception exactly when no call failed, and with
    [CommandFailed] when one did. *)
Theorem plain_sessions_fail_by_commands (W : World) (session : Session) :
  command_errors_only (tests W session)
  /\ command_errors_only (docs_linkcheck W)
  /\ command_errors_only (flake W).
Proof.
  repeat split.
  - unfold tests, install. cbv zeta. command_errors_steps.
  - unfold docs_linkcheck, install. command_errors_steps.
  - unfold flake, install. command_errors_steps.
Qed.

(** ** What holds of every call of a session *)

Section AllEvents.

Variable W : World.
Variable P : event -> Prop.

Lemma all_events_ret {A} (a : A) : all_events P (ret a).
Proof.
  intros s. exists []. simpl. rewrite app_nil_r. split; [reflexivity|].
  constructor.
Qed.

Lemma all_events_raise {A} (e : exn) : all_events P (@raise A e).
Proof.
  intros s. exists []. simpl. rewrite app_nil_r. split; [reflexivity|].
  constructor.
Qed.

Lemma all_events_bind {A B} (m : M A) (k : A -> M B) :
  all_events P m -> (forall a, all_events P (k a)) -> all_events P (bind m k).
Proof.
  intros Hm Hk s. unfold bind.
  destruct (Hm s) as (evs & Htrace & Hevs).
  destruct (m s) as [[a|e] s1]; simpl in *.
  - destruct (Hk a s1) as (evs' & Htrace' & Hevs').
    exists (evs ++ evs'). rewrite Htrace', Htrace, app_assoc.
    split; [reflexivity|]. apply Forall_app. split; assumption.
  - exists evs. split; assumption.
Qed.

Lemma all_events_session_install args :
  (forall env dir ok, P (EInstall env dir args ok)) ->
  all_events P (session_install W args).
Proof.
  intros HP s. unfold session_install. cbv zeta.
  destruct (install_ok W s args); simpl; eexists [_];
    (split; [reflexivity|]); constructor; [apply HP | constructor
                                           | apply HP | constructor].
Qed.

Lemma all_events_session_run args kw :
  (forall env dir res, P (ERun env dir args kw res)) ->
  all_events P (session_run W args kw).
Proof.
  intros HP s. unfold session_run. cbv zeta.
  destruct (run_cmd W s args kw); simpl; eexists [_];
    (split; [reflexivity|]); constructor; [apply HP | constructor
                                           | apply HP | constructor].
Qed.

Lemma all_events_glob_glob pattern recursive :
  (forall dir res, P (EGlob dir pattern recursive res)) ->
  all_events P (glob_glob W pattern recursive).
Proof.
  intros HP s. unfold glob_glob. simpl. eexists [_].
  split; [reflexivity|]. constructor; [apply HP | constructor].
Qed.

Lemma all_events_collect_filenames output :
  all_events P (collect_filenames W output).
Proof.
  intros s. unfold collect_filenames.
  destruct (for_blobs (json_loads W) (splitlines output) []) as [[[]|e] fl].
  - apply (all_events_ret fl).
  - apply (@all_events_raise (list json) e).
Qed.

Lemma all_events_with_chdir {A} dir (body : M A) :
  all_events P body -> all_events P (with_chdir W dir body).
Proof.
  intros Hbody s. unfold with_chdir.
  destruct (chdir_to W s dir) as [d|].
  - destruct (Hbody (set_cwd d s)) as (evs & Htrace & Hevs).
    destruct (body (set_cwd d s)) as [r s1]. simpl in *.
    exists evs. split; assumption.
  - apply (@all_events_raise A OSError).
Qed.

Lemma all_events_with_open {A} fname mode (body : file -> M A) :
  (forall dir ok, P (EOpen dir fname mode ok)) ->
  P (EClose (File fname mode)) ->
  (forall f, all_events P (body f)) ->
  all_events P (with_open W fname mode body).
Proof.
  intros Hopen Hclose Hbody s. unfold with_open. cbv zeta.
  destruct (open_ok W s fname mode).
  - set (f := File fname mode).
    set (s1 := set_open_files _ _).
    destruct (Hbody f s1) as (evs & Htrace & Hevs).
    destruct (body f s1) as [r s2]. subst s1. simpl in *.
    exists (EOpen (cwd s) fname mode true :: evs ++ [EClose f]).
    rewrite Htrace, <- !app_assoc. split; [reflexivity|].
    constructor; [apply Hopen|]. apply Forall_app. split; [assumption|].
    constructor; [exact Hclose | constructor].
  - simpl. eexists [_]. split; [reflexivity|].
    constructor; [apply Hopen | constructor].
Qed.

Lemma all_events_create_tmp (T : TmpDir) : all_events P (create_tmp T).
Proof.
  intros s. unfold create_tmp.
  destruct (create_tmp_result T s) as [[tmpdir abspath]|]; simpl;
    exists []; rewrite app_nil_r; (split; [reflexivity | constructor]).
Qed.

Lemma all_events_env_update d : all_events P (env_update d).
Proof.
  intros s. exists []. simpl. rewrite app_nil_r.
  split; [reflexivity | constructor].
Qed.

End AllEvents.

(** The steps of a proof of [all_events P session]; what is left is [P]
    of each call. *)
Ltac all_events_steps :=
  repeat first
    [ apply all_events_session_install; intros ? ? ?
    | apply all_events_session_run; intros ? ? ?
    | apply all_events_glob_glob; intros ? ?
    | apply all_events_collect_filenames
    | apply all_events_create_tmp
    | apply all_events_env_update
    | apply all_events_ret
    | apply all_events_raise
    | apply all_events_with_chdir
    | apply all_events_with_open; [intros ? ? | | intros ?]
    | apply all_events_bind; [|intros ?]
    | match goal with |- all_events _ (if ?b then _ else _) => destruct b end
    | match goal with
      | |- all_events _ (match ?v with _ => _ end) => destruct v
      end ].

(** X5. No session installs anything past the constraints file: every
    installation of every session has the arguments
    [-v -c ci-constraints-requirements.txt] before its targets. *)
Theorem installs_are_constrained
    (W : World) (T : TmpDir) (session : Session) :
  all_events constrained (tests W session)
  /\ all_events constrained (docs W T)
  /\ all_events constrained (docs_linkcheck W)
  /\ all_events constrained (flake W)
  /\ all_events constrained (rust W)
  /\ all_events constrained (rust_coverage W session).
Proof.
  repeat split.
  - unfold tests, install. cbv zeta. all_events_steps;
      first [exact I | eexists; reflexivity].
  - unfold docs, install. all_events_steps;
      first [exact I | eexists; reflexivity].
  - unfold docs_linkcheck, install. all_events_steps;
      first [exact I | eexists; reflexivity].
  - unfold flake, install. all_events_steps;
      first [exact I | eexists; reflexivity].
  - unfold rust, install. all_events_steps;
      first [exact I | eexists; reflexivity].
  - unfold rust_coverage, tests, install. cbv zeta. all_events_steps;
      first [exact I | eexists; reflexivity].
Qed.

(** X6. Every run of sphinx-build, in [docs] and in [docs_linkcheck], has
    the option [-W]: a warning of any of the five builders makes the
    command, and so the session, fail. *)
Theorem sphinx_builds_are_strict (W : World) (T : TmpDir) :
  all_events sphinx_strict (docs W T)
  /\ all_events sphinx_strict (docs_linkcheck W).
Proof.
  split.
  - unfold docs, install. all_events_steps; try exact I;
      simpl; intros Hsphinx; first [discriminate Hsphinx | find_event].
  - unfold docs_linkcheck, install. all_events_steps; try exact I;
      simpl; intros Hsphinx; first [discriminate Hsphinx | find_event].
Qed.

(** ** The calls of the sessions, one by one *)

Lemma bind_create_tmp {B} (T : TmpDir) (k : string -> M B) (s : state) :
  bind (create_tmp T) k s
  = match create_tmp_result T s with
    | Some (tmpdir, abspath) =>
        k tmpdir (set_env (<["TMPDIR" := abspath]> (session_env s)) s)
    | None => (Raise OSError, s)
    end.
Proof.
  unfold bind, create_tmp.
  destruct (create_tmp_result T s) as [[tmpdir abspath]|]; reflexivity.
Qed.

(** One step of the session that stands in the goal, whichever session it
    is: a case for each outcome of its first call. *)
Ltac run_any_step :=
  lazymatch goal with
  | |- context [bind (bind _ _) _ _] => rewrite bind_bind
  | |- context [bind (ret _) _ _] => rewrite bind_ret
  | |- context [bind (env_update _) _ _] => rewrite bind_env_update
  | |- context [bind (create_tmp _) _ _] =>
      rewrite bind_create_tmp; normal_state;
      lazymatch goal with
      | |- context [create_tmp_result ?T ?s] =>
          destruct (create_tmp_result T s) as [[?tmpdir ?abspath]|] eqn:?
      end
  | |- context [bind (session_install _ _) _ _] =>
      rewrite bind_session_install; normal_state;
      lazymatch goal with
      | |- context [install_ok ?W ?s ?a] => destruct (install_ok W s a)
      end
  | |- context [bind (session_run _ _ _) _ _] =>
      rewrite bind_session_run; normal_state;
      lazymatch goal with
      | |- context [run_cmd ?W ?s ?a ?kw] =>
          destruct (run_cmd W s a kw) as [?v|]
      end
  | |- context [bind (glob_glob _ _ _) _ _] =>
      rewrite bind_glob_glob; normal_state;
      lazymatch goal with
      | |- context [glob_result ?W ?s ?p ?r] =>
          generalize (glob_result W s p r); intros ?found
      end
  | |- context [bind (collect_filenames _ _) _ _] =>
      rewrite bind_collect_filenames; normal_state;
      lazymatch goal with
      | |- context [for_blobs ?l (splitlines ?o) []] =>
          destruct (for_blobs l (splitlines o) [])
            as [[[]|?e] ?filenames] eqn:?
      end
  | |- context [with_chdir _ _ _ _] =>
      unfold with_chdir; normal_state;
      lazymatch goal with
      | |- context [chdir_to ?W ?s ?p] =>
          destruct (chdir_to W s p) as [?dir|]
      end
  | |- context [with_open _ _ _ _ _] =>
      unfold with_open; cbv zeta; normal_state;
      lazymatch goal with
      | |- context [open_ok ?W ?s ?n ?m] => destruct (open_ok W s n m)
      end
  | |- context [if run_truthy ?v then _ else _] =>
      destruct v as [| |[|?c ?output]];
      cbn [run_truthy String.eqb negb]
  end;
  normal_state.

Ltac run_any_session :=
  cbv beta zeta
      delta [rust_coverage rust tests docs docs_linkcheck flake install];
  repeat run_any_step.

(** The events of a finished run, to state something of them. *)
Ltac give_events :=
  cbn [log set_cwd set_env set_open_files session_env cwd open_files trace
       fst snd];
  repeat rewrite <- app_assoc; cbn [app].

Lemma tests_extras (n : string) :
  (if String.eqb n "tests-randomorder"
   then (if String.eqb n "tests-ssh" then "test" +:+ ",ssh" else "test")
        +:+ ",test-randomorder"
   else if String.eqb n "tests-ssh" then "test" +:+ ",ssh" else "test")
  = extras_of n.
Proof.
  unfold extras_of.
  destruct (String.eqb_spec n "tests-ssh") as [->|Hssh]; [reflexivity|].
  destruct (String.eqb n "tests-randomorder"); reflexivity.
Qed.

Lemma tests_cov_args (n : string) :
  (if negb (String.eqb n "tests-nocoverage")
   then ["--cov=cryptography"; "--cov=tests"] else [])
  = cov_args_of n.
Proof.
  unfold cov_args_of. destruct (String.eqb n "tests-nocoverage"); reflexivity.
Qed.

Lemma strs_last (l : list string) (x : string) :
  last (strs (l ++ [x])) = Some (JStr x).
Proof. unfold strs. rewrite map_app. apply last_snoc. Qed.

(** X7. The first thing [tests] does, under each of its names, is to
    install the project with the extras of that name: [test,ssh] for
    [tests-ssh], [test,test-randomorder] for [tests-randomorder], [test]
    for any other name.  The two additions never come together. *)
Theorem tests_installs_extras_of_name
    (W : World) (session : Session) (s : state) :
  exists ok rest,
    trace (snd (tests W session s))
    = trace s
      ++ EInstall (session_env s) (cwd s)
           ["-v"; "-c"; "ci-constraints-requirements.txt";
            ".[" +:+ extras_of (name session) +:+ "]"] ok
         :: rest.
Proof.
  destruct s as [env0 cwd0 files0 trace0].
  destruct (tests W session _) as [r s'] eqn:Hrun. revert Hrun.
  cbv beta zeta delta [tests]. rewrite tests_extras.
  run_any_session.
  all: intros [= <- <-].
  all: give_events.
  all: do 2 eexists; reflexivity.
Qed.

(** X8. When [tests] runs pytest, the arguments given to the session are
    passed on as they are, in their order, after the options of the
    session and before the directory [tests/], which stays the last
    argument; the two coverage options are there unless the name of the
    session is [tests-nocoverage]. *)
Theorem tests_forwards_posargs
    (W : World) (session : Session) (s : state) (r : result unit) (s' : state)
    (evs : list event) (env : gmap string string) (dir : string)
    (args : list json) (kw : run_kwargs) (res : option run_value) :
  tests W session s = (r, s') ->
  trace s' = trace s ++ evs ->
  In (ERun env dir args kw res) evs ->
  starts_with args ["pytest"] = true ->
  args = strs (["pytest"; "-n"; "auto"; "--dist=worksteal"]
               ++ cov_args_of (name session)
               ++ ["--durations=10"] ++ posargs session ++ ["tests/"])
  /\ last args = Some (JStr "tests/").
Proof.
  destruct s as [env0 cwd0 files0 trace0].
  intros Hrun Htrace Hin Hpytest. revert Hrun.
  cbv beta zeta delta [tests]. rewrite tests_cov_args.
  run_any_session.
  all: intros [= <- <-].
  all: new_events Htrace.
  all: split_in Hin.
  all: injection Hin as <- <- <- <- <-.
  all: try discriminate Hpytest.
  all: split; [reflexivity|].
  all: change (last (strs (["pytest"; "-n"; "auto"; "--dist=worksteal"]
                           ++ cov_args_of (name session)
                           ++ ["--durations=10"] ++ posargs session
                           ++ ["tests/"]))
               = Some (JStr "tests/")).
  all: rewrite !app_assoc; apply strs_last.
Qed.

Lemma tests_forwards_posargs_witness :
  strs (["pytest"; "-n"; "auto"; "--dist=worksteal"]
        ++ cov_args_of "tests-nocoverage"
        ++ ["--durations=10"] ++ ["-k"; "x509"] ++ ["tests/"])
  = strs (["pytest"; "-n"; "auto"; "--dist=worksteal"]
          ++ cov_args_of (name (Build_Session "tests-nocoverage"
                                  ["-k"; "x509"] ".nox/tests-nocoverage"))
          ++ ["--durations=10"]
          ++ posargs (Build_Session "tests-nocoverage" ["-k"; "x509"]
                        ".nox/tests-nocoverage")
          ++ ["tests/"])
  /\ last (strs (["pytest"; "-n"; "auto"; "--dist=worksteal"]
                 ++ cov_args_of "tests-nocoverage"
                 ++ ["--durations=10"] ++ ["-k"; "x509"] ++ ["tests/"]))
     = Some (JStr "tests/").
Proof.
  apply (tests_forwards_posargs world_no_output
           (Build_Session "tests-nocoverage" ["-k"; "x509"]
              ".nox/tests-nocoverage")
           initial_state
           (fst (tests world_no_output
                   (Build_Session "tests-nocoverage" ["-k"; "x509"]
                      ".nox/tests-nocoverage") initial_state))
           (snd (tests world_no_output
                   (Build_Session "tests-nocoverage" ["-k"; "x509"]
                      ".nox/tests-nocoverage") initial_state))
           (trace (snd (tests world_no_output
                          (Build_Session "tests-nocoverage" ["-k"; "x509"]
                             ".nox/tests-nocoverage") initial_state)))
           (session_env initial_state) "/repo"
           (strs (["pytest"; "-n"; "auto"; "--dist=worksteal"]
                  ++ cov_args_of "tests-nocoverage"
                  ++ ["--durations=10"] ++ ["-k"; "x509"] ++ ["tests/"]))
           default_kw (Some RTrue)).
  - apply run_pair.
  - exact (eq_sym (app_nil_l _)).
  - apply (nth_error_In _ 3). vm_compute. reflexivity.
  - reflexivity.
Defined.

(** X9. Every command of [docs] is run after [session.create_tmp()] has
    succeeded, with [TMPDIR] set to the absolute path of that directory;
    the html, latex and doctest builds are given one and the same
    directory of doctrees, [doctrees] under the directory returned, and no
    other command of the session is given one. *)
Theorem docs_builds_share_doctrees
    (W : World) (T : TmpDir) (s : state) (r : result unit) (s' : state)
    (evs : list event) (env : gmap string string) (dir : string)
    (args : list json) (kw : run_kwargs) (res : option run_value) :
  docs W T s = (r, s') ->
  trace s' = trace s ++ evs ->
  In (ERun env dir args kw res) evs ->
  exists tmpdir abspath,
    create_tmp_result T
      (log (EInstall (session_env s) (cwd s)
              ["-v"; "-c"; "ci-constraints-requirements.txt";
               ".[docs,docstest,sdist,ssh]"] true) s)
    = Some (tmpdir, abspath)
    /\ env = <["TMPDIR" := abspath]> (session_env s)
    /\ option_value "-d" args
       = if doctree_builder args
         then Some (JStr (tmpdir +:+ "/doctrees"))
         else None.
Proof.
  destruct s as [env0 cwd0 files0 trace0].
  intros Hrun Htrace Hin. revert Hrun.
  run_any_session.
  all: intros [= <- <-].
  all: new_events Htrace.
  all: split_in Hin.
  all: injection Hin as <- <- <- <- <-.
  all: do 2 eexists; split; [eassumption|]; split; reflexivity.
Qed.

Lemma docs_builds_share_doctrees_witness :
  exists tmpdir abspath,
    create_tmp_result a_tmp_dir
      (log (EInstall (session_env initial_state) (cwd initial_state)
              ["-v"; "-c"; "ci-constraints-requirements.txt";
               ".[docs,docstest,sdist,ssh]"] true) initial_state)
    = Some (tmpdir, abspath)
    /\ <["TMPDIR" := "/repo/.nox/docs/tmp"]> (session_env initial_state)
       = <["TMPDIR" := abspath]> (session_env initial_state)
    /\ option_value "-d"
         (strs ["sphinx-build"; "-T"; "-W"; "-b"; "latex"; "-d";
                ".nox/docs/tmp/doctrees"; "docs"; "docs/_build/latex"])
       = if doctree_builder
              (strs ["sphinx-build"; "-T"; "-W"; "-b"; "latex"; "-d";
                     ".nox/docs/tmp/doctrees"; "docs"; "docs/_build/latex"])
         then Some (JStr (tmpdir +:+ "/doctrees"))
         else None.
Proof.
  apply (docs_builds_share_doctrees world_sdist_fails a_tmp_dir initial_state
           (fst (docs world_sdist_fails a_tmp_dir initial_state))
           (snd (docs world_sdist_fails a_tmp_dir initial_state))
           (trace (snd (docs world_sdist_fails a_tmp_dir initial_state)))
           (<["TMPDIR" := "/repo/.nox/docs/tmp"]> (session_env initial_state))
           "/repo"
           (strs ["sphinx-build"; "-T"; "-W"; "-b"; "latex"; "-d";
                  ".nox/docs/tmp/doctrees"; "docs"; "docs/_build/latex"])
           default_kw (Some RTrue)).
  - apply run_pair.
  - exact (eq_sym (app_nil_l _)).
  - apply (nth_error_In _ 2). vm_compute. reflexivity.
Defined.

(** X10. [docs] checks the distribution with twine only right after it has
    built the sdist, with success, and after every build of the
    documentation has succeeded: when the twine command is run, the sdist
    build is the call before it and no earlier call has failed. *)
Theorem twine_checks_a_built_sdist
    (W : World) (T : TmpDir) (s : state) (r : result unit) (s' : state)
    (evs : list event) (env : gmap string string) (dir : string)
    (kw : run_kwargs) (res : option run_value) :
  docs W T s = (r, s') ->
  trace s' = trace s ++ evs ->
  In (ERun env dir (strs ["twine"; "check"; "dist/*"]) kw res) evs ->
  exists pre built,
    evs = pre ++ [ERun env dir (strs ["python"; "-m"; "build"; "--sdist"])
                    default_kw (Some built);
                  ERun env dir (strs ["twine"; "check"; "dist/*"]) kw res]
    /\ existsb failed pre = false
    /\ List.length (List.filter (fun ev => starts_with (run_args ev)
                                             ["sphinx-build"]) pre) = 4.
Proof.
  destruct s as [env0 cwd0 files0 trace0].
  intros Hrun Htrace Hin. revert Hrun.
  run_any_session.
  all: intros [= <- <-].
  all: new_events Htrace.
  all: split_in Hin.
  all: injection Hin as <- <- <- <-.
  all: match goal with
       | |- exists pre built, ?l = _ /\ _ =>
           exists (firstn (List.length l - 2) l); eexists;
           split; [reflexivity|]; split; reflexivity
       end.
Qed.

Lemma twine_checks_a_built_sdist_witness :
  exists pre built,
    trace (snd (docs world_no_output a_tmp_dir initial_state))
    = pre ++ [ERun (<["TMPDIR" := "/repo/.nox/docs/tmp"]>
                      (session_env initial_state)) "/repo"
                (strs ["python"; "-m"; "build"; "--sdist"])
                default_kw (Some built);
              ERun (<["TMPDIR" := "/repo/.nox/docs/tmp"]>
                      (session_env initial_state)) "/repo"
                (strs ["twine"; "check"; "dist/*"]) default_kw (Some RTrue)]
    /\ existsb failed pre = false
    /\ List.length (List.filter (fun ev => starts_with (run_args ev)
                                             ["sphinx-build"]) pre) = 4.
Proof.
  apply (twine_checks_a_built_sdist world_no_output a_tmp_dir initial_state
           (fst (docs world_no_output a_tmp_dir initial_state))
           (snd (docs world_no_output a_tmp_dir initial_state))).
  - apply run_pair.
  - exact (eq_sym (app_nil_l _)).
  - apply (nth_error_In _ 6). vm_compute. reflexivity.
Defined.


(** X12. The stages of [rust_coverage] fit together: when the export
    command is run, its arguments are [cargo cov -- export], then the
    shared objects that the glob found, then the list that the loop made
    of the output of the silent run, then the fixed options; and that list
    is made of whole references, marker then path, at most one for each
    line of the output. *)
Theorem export_gets_what_was_collected
    (W : World) (session : Session) (s : state) (r : result unit) (s' : state)
    (evs : list event) (env : gmap string string) (dir : string)
    (args : list json) (kw : run_kwargs) (res : option run_value) :
  rust_coverage W session s = (r, s') ->
  trace s' = trace s ++ evs ->
  In (ERun env dir args kw res) evs ->
  is_export_run (ERun env dir args kw res) = true ->
  exists output filenames rust_so,
    In (ERun env dir messages_args (RunKwargs true true None)
          (Some (RStr output))) evs
    /\ for_blobs (json_loads W) (splitlines output) [] = (Ok tt, filenames)
    /\ In (EGlob dir (virtualenv_location session
                      +:+ "/lib/**/site-packages"
                      +:+ "/cryptography/hazmat/bindings/_rust_abi3.so")
             false rust_so) evs
    /\ args = export_args rust_so filenames
    /\ exists paths,
         filenames = references paths
         /\ List.length paths <= List.length (splitlines output).
Proof.
  destruct s as [env0 cwd0 files0 trace0].
  intros Hrun Htrace Hin Hexport. revert Hrun.
  run_any_session.
  all: intros [= <- <-].
  all: new_events Htrace.
  all: split_in Hin.
  all: try (injection Hin as <- <- <- <- <-; discriminate Hexport).
  all: injection Hin as <- <- <- <- <-.
  all: do 3 eexists; split; [find_event|]; split; [eassumption|];
       split; [find_event|]; split; [reflexivity|].
  all: match goal with
       | H : for_blobs ?l ?b [] = (_, ?fl) |- exists paths, ?fl = _ /\ _ =>
           destruct (for_blobs_appends l b []) as (paths & Hpaths & Hlen);
           rewrite H in Hpaths; exists paths; split; [exact Hpaths | exact Hlen]
       end.
Qed.

Lemma export_gets_what_was_collected_witness :
  exists output filenames rust_so,
    In (ERun (coverage_env (session_env initial_state)) "/repo/src/rust/"
          messages_args (RunKwargs true true None) (Some (RStr output)))
      (trace (snd (rust_coverage world_export_fails a_session initial_state)))
    /\ for_blobs (json_loads world_export_fails) (splitlines output) []
       = (Ok tt, filenames)
    /\ In (EGlob "/repo/src/rust/"
             (virtualenv_location a_session
              +:+ "/lib/**/site-packages"
              +:+ "/cryptography/hazmat/bindings/_rust_abi3.so")
             false rust_so)
         (trace (snd (rust_coverage world_export_fails a_session
                        initial_state)))
    /\ export_args ["x.so"] (references [JStr "bin1"])
       = export_args rust_so filenames
    /\ exists paths,
         filenames = references paths
         /\ List.length paths <= List.length (splitlines output).
Proof.
  apply (export_gets_what_was_collected world_export_fails a_session
           initial_state
           (fst (rust_coverage world_export_fails a_session initial_state))
           (snd (rust_coverage world_export_fails a_session initial_state))
           (trace (snd (rust_coverage world_export_fails a_session
                          initial_state)))
           (coverage_env (session_env initial_state)) "/repo/src/rust/"
           (export_args ["x.so"] (references [JStr "bin1"]))
           (RunKwargs true false (Some (File "../../cov.lcov" "wb"))) None).
  - apply run_pair.
  - exact (eq_sym (app_nil_l _)).
  - apply (nth_error_In _ 10). vm_compute. reflexivity.
  - reflexivity.
Defined.

(** X13. The sessions [tests], [docs_linkcheck], [flake] and [rust] leave
    the environment of the session, the working directory and the open
    files as they found them, however they end, and make every call in
    that environment; [docs] does the same but for [TMPDIR], the one
    variable it may have set. *)
Theorem sessions_keep_their_state
    (W : World) (T : TmpDir) (session : Session) (s : state) :
  keeps (tests W session)
  /\ keeps (docs_linkcheck W)
  /\ keeps (flake W)
  /\ keeps (rust W)
  /\ cwd (snd (docs W T s)) = cwd s
  /\ open_files (snd (docs W T s)) = open_files s
  /\ delete "TMPDIR" (session_env (snd (docs W T s)))
     = delete "TMPDIR" (session_env s).
Proof.
  split; [apply keeps_tests|].
  split.
  { unfold docs_linkcheck.
    repeat first [ apply keeps_install | apply keeps_session_run
                 | apply keeps_ret | apply keeps_bind; [|intros ?] ]. }
  split.
  { unfold flake.
    repeat first [ apply keeps_install | apply keeps_session_run
                 | apply keeps_ret | apply keeps_bind; [|intros ?] ]. }
  split; [apply keeps_rust|].
  destruct s as [env0 cwd0 files0 trace0].
  destruct (docs W T _) as [r s'] eqn:Hrun. revert Hrun.
  run_any_session.
  all: intros [= <- <-].
  all: cbn [log set_cwd set_env set_open_files session_env cwd open_files
            trace fst snd].
  all: rewrite ?delete_insert_eq.
  all: repeat split.
Qed.
